(** * FRED dashboard: the series fetcher, the four normalizing pipelines
      and the page controller

    A shallow embedding of [app/services/fredApi.ts] and of the data-loading
    effect of [app/page.tsx], with the parts of the JavaScript platform they
    call ([fetch], [URLSearchParams], [Date], [parseFloat], [Promise.all],
    [console]) modelled next to them.

    - [Module JS]      the platform: completions, strings, numbers, dates.
    - [Module FredApi] [fredApi.ts], function by function.
    - [Module Page]    the [loadData] effect of [Home] in [page.tsx].
    - then the properties. *)

From Stdlib Require Import ZArith NArith List String Ascii Bool Lia DecimalString.
Import ListNotations.

Local Open Scope string_scope.
Local Open Scope Z_scope.

(* ===================================================================== *)
(** * The JavaScript platform *)
(* ===================================================================== *)

Module JS.

(** An error value: [new Error(msg)] has name ["Error"]; the platform throws
    ["TypeError"], ["SyntaxError"], ["RangeError"]. *)
Record JsError : Type := mkError { name : string; message : string }.

Definition Error (msg : string) : JsError := mkError "Error" msg.
Definition TypeError (msg : string) : JsError := mkError "TypeError" msg.
Definition SyntaxError (msg : string) : JsError := mkError "SyntaxError" msg.
Definition RangeError (msg : string) : JsError := mkError "RangeError" msg.

(** How an evaluation (or an awaited promise) ends: with a value, or with a
    thrown error (a rejection). *)
Inductive Completion (A : Type) : Type :=
| Normal (a : A)
| Throw (e : JsError).
Arguments Normal {A} a.
Arguments Throw {A} e.

(** ** Strings

    A JavaScript string is held as a Rocq [string] of its UTF-8 bytes; the
    strict comparison [===] of two strings is equality of the bytes.  A
    string with a lone surrogate has no UTF-8 bytes and is not held. *)

Definition ascii_code (c : ascii) : Z := Z.of_nat (nat_of_ascii c).

Definition is_digit (c : ascii) : bool :=
  (48 <=? ascii_code c) && (ascii_code c <=? 57).

Definition digit_value (c : ascii) : Z := ascii_code c - 48.

Definition digit_char (d : Z) : ascii := ascii_of_nat (Z.to_nat (48 + d)).

(** [String(n)] of a non-negative integer. *)
Definition N_to_string (n : N) : string :=
  NilZero.string_of_uint (N.to_uint n).

(** The decimal digits of [n], exactly [width] of them, zero padded (the
    low digits when [n] is wider). *)
Fixpoint pad_digits (width : nat) (n : Z) : string :=
  match width with
  | O => EmptyString
  | S w => pad_digits w (n / 10) ++ String (digit_char (n mod 10)) EmptyString
  end.

(** [s.split(sep)[0]] for a one-character separator: the part of [s] before
    the first [sep], all of [s] when there is none. *)
Fixpoint split_first (sep : ascii) (s : string) : string :=
  match s with
  | EmptyString => EmptyString
  | String c rest =>
      if Ascii.eqb c sep then EmptyString else String c (split_first sep rest)
  end.

(** ** [URLSearchParams]

    The list of name-value pairs, in insertion order, and its
    [application/x-www-form-urlencoded] serialization. *)

Definition URLSearchParams : Type := list (string * string).

Definition append (params : URLSearchParams) (name value : string)
  : URLSearchParams :=
  (params ++ [(name, value)])%list.

Definition hex_char (d : Z) : ascii :=
  if d <? 10 then digit_char d else ascii_of_nat (Z.to_nat (55 + d)).

Definition is_alnum (c : ascii) : bool :=
  let k := ascii_code c in
  is_digit c || ((65 <=? k) && (k <=? 90)) || ((97 <=? k) && (k <=? 122)).

(** Bytes left as they are: alphanumerics and [* - . _]. *)
Definition urlencoded_safe (c : ascii) : bool :=
  let k := ascii_code c in
  is_alnum c || (k =? 42) || (k =? 45) || (k =? 46) || (k =? 95).

Fixpoint urlencode (s : string) : string :=
  match s with
  | EmptyString => EmptyString
  | String c rest =>
      let k := ascii_code c in
      if urlencoded_safe c then String c (urlencode rest)
      else if k =? 32 then String "+" (urlencode rest)
      else String "%" (String (hex_char (k / 16))
                         (String (hex_char (k mod 16)) (urlencode rest)))
  end.

Fixpoint params_toString (params : URLSearchParams) : string :=
  match params with
  | [] => EmptyString
  | [(n, v)] => urlencode n ++ "=" ++ urlencode v
  | (n, v) :: rest =>
      urlencode n ++ "=" ++ urlencode v ++ "&" ++ params_toString rest
  end.

(** ** Numbers

    A Number is held by the mathematical value it is rounded from:
    [Decimal neg m e] stands for the double nearest to [(-1)^neg * m * 10^e].
    The rounding itself is outside the model, so two [Decimal]s of the same
    rational stand for the same double, and a numeric literal [3.6] of the
    language is [Decimal false 36 (-1)]. *)
Inductive Number : Type :=
| NaN
| Infinity (neg : bool)
| Decimal (neg : bool) (mantissa : N) (exp10 : Z).

Definition is_NaN (x : Number) : bool :=
  match x with NaN => true | _ => false end.

(** *** [parseFloat]

    Leading white space and line terminators are dropped, then the longest
    prefix that is a [StrDecimalLiteral] is read; without one the result is
    [NaN]. *)

Definition ascii_white_space (c : ascii) : bool :=
  let k := ascii_code c in
  (k =? 9) || (k =? 10) || (k =? 11) || (k =? 12) || (k =? 13) || (k =? 32).

(** U+00A0, in UTF-8. *)
Definition white_space2 (c1 c2 : ascii) : bool :=
  (ascii_code c1 =? 194) && (ascii_code c2 =? 160).

(** U+1680, U+2000..U+200A, U+2028, U+2029, U+202F, U+205F, U+3000 and
    U+FEFF, in UTF-8. *)
Definition white_space3 (c1 c2 c3 : ascii) : bool :=
  let k1 := ascii_code c1 in
  let k2 := ascii_code c2 in
  let k3 := ascii_code c3 in
  ((k1 =? 225) && (k2 =? 154) && (k3 =? 128))
  || ((k1 =? 226) && (k2 =? 128)
      && (((128 <=? k3) && (k3 <=? 138)) || (k3 =? 168) || (k3 =? 169)
          || (k3 =? 175)))
  || ((k1 =? 226) && (k2 =? 129) && (k3 =? 159))
  || ((k1 =? 227) && (k2 =? 128) && (k3 =? 128))
  || ((k1 =? 239) && (k2 =? 187) && (k3 =? 191)).

Fixpoint trim_start (s : string) : string :=
  match s with
  | EmptyString => s
  | String c1 r1 =>
      if ascii_white_space c1 then trim_start r1
      else
        match r1 with
        | EmptyString => s
        | String c2 r2 =>
            if white_space2 c1 c2 then trim_start r2
            else
              match r2 with
              | EmptyString => s
              | String c3 r3 =>
                  if white_space3 c1 c2 c3 then trim_start r3 else s
              end
        end
  end.

(** The longest prefix of decimal digits, and what follows it. *)
Fixpoint span_digits (s : string) : string * string :=
  match s with
  | EmptyString => (EmptyString, EmptyString)
  | String c rest =>
      if is_digit c
      then let (ds, r) := span_digits rest in (String c ds, r)
      else (EmptyString, s)
  end.

Fixpoint digits_value_from (acc : Z) (ds : string) : Z :=
  match ds with
  | EmptyString => acc
  | String c rest => digits_value_from (10 * acc + digit_value c) rest
  end.

Definition digits_value (ds : string) : Z := digits_value_from 0 ds.

Definition is_empty (s : string) : bool :=
  match s with EmptyString => true | _ => false end.

(** [ExponentPart], when one is there: the exponent, and [0] otherwise (an
    [e] that no digit follows is not part of the literal). *)
Definition exponent_part (s : string) : Z :=
  match s with
  | String c r =>
      if (ascii_code c =? 101) || (ascii_code c =? 69) then
        match r with
        | String "+" r' =>
            let (ds, _) := span_digits r' in digits_value ds
        | String "-" r' =>
            let (ds, _) := span_digits r' in - digits_value ds
        | _ =>
            let (ds, _) := span_digits r in digits_value ds
        end
      else 0
  | EmptyString => 0
  end.

(** The longest [StrUnsignedDecimalLiteral] at the head of [s]. *)
Definition StrUnsignedDecimalLiteral (neg : bool) (s : string) : Number :=
  if prefix "Infinity" s then Infinity neg
  else
    let (ip, r1) := span_digits s in
    match r1 with
    | String "." r =>
        let (fp, r2) := span_digits r in
        if is_empty ip && is_empty fp then NaN
        else Decimal neg (Z.to_N (digits_value (ip ++ fp)))
                     (exponent_part r2 - Z.of_nat (String.length fp))
    | _ =>
        if is_empty ip then NaN
        else Decimal neg (Z.to_N (digits_value ip)) (exponent_part r1)
    end.

Definition parseFloat (input : string) : Number :=
  match trim_start input with
  | String "+" r => StrUnsignedDecimalLiteral false r
  | String "-" r => StrUnsignedDecimalLiteral true r
  | trimmed => StrUnsignedDecimalLiteral false trimmed
  end.

(** ** Dates

    A time value is a number of milliseconds since 1970-01-01T00:00:00Z; a
    [Date] holds one, or is invalid (time value [NaN]). *)

Definition Date : Type := option Z.

Definition msPerDay : Z := 86400000.
Definition maxTime : Z := 8640000000000000.

Definition TimeClip (t : Z) : Date :=
  if Z.abs t <=? maxTime then Some t else None.

Definition Day (t : Z) : Z := t / msPerDay.
Definition TimeWithinDay (t : Z) : Z := t mod msPerDay.

Definition DayFromYear (y : Z) : Z :=
  365 * (y - 1970) + (y - 1969) / 4 - (y - 1901) / 100 + (y - 1601) / 400.

Definition DaysInYear (y : Z) : Z :=
  if negb (y mod 4 =? 0) then 365
  else if negb (y mod 100 =? 0) then 366
  else if negb (y mod 400 =? 0) then 365
  else 366.

(** The year a day falls in: the largest [y] with [DayFromYear y <= day].
    The mean year has 146097/400 days, which places the year within one of
    the estimate. *)
Definition YearFromDay (day : Z) : Z :=
  let y0 := 1970 + (400 * day) / 146097 in
  if day <? DayFromYear y0 then y0 - 1
  else if DayFromYear (y0 + 1) <=? day then y0 + 1
  else y0.

Definition YearFromTime (t : Z) : Z := YearFromDay (Day t).

Definition InLeapYear (t : Z) : Z :=
  if DaysInYear (YearFromTime t) =? 366 then 1 else 0.

Definition DayWithinYear (t : Z) : Z := Day t - DayFromYear (YearFromTime t).

(** The month, from 0 (January) to 11 (December). *)
Definition MonthFromTime (t : Z) : Z :=
  let d := DayWithinYear t in
  let leap := InLeapYear t in
  if d <? 31 then 0
  else if d <? 59 + leap then 1
  else if d <? 90 + leap then 2
  else if d <? 120 + leap then 3
  else if d <? 151 + leap then 4
  else if d <? 181 + leap then 5
  else if d <? 212 + leap then 6
  else if d <? 243 + leap then 7
  else if d <? 273 + leap then 8
  else if d <? 304 + leap then 9
  else if d <? 334 + leap then 10
  else 11.

(** The number of days of the year before month [m] (0 to 11). *)
Definition DaysBeforeMonth (m leap : Z) : Z :=
  if m =? 0 then 0
  else if m =? 1 then 31
  else if m =? 2 then 59 + leap
  else if m =? 3 then 90 + leap
  else if m =? 4 then 120 + leap
  else if m =? 5 then 151 + leap
  else if m =? 6 then 181 + leap
  else if m =? 7 then 212 + leap
  else if m =? 8 then 243 + leap
  else if m =? 9 then 273 + leap
  else if m =? 10 then 304 + leap
  else 334 + leap.

(** The day of the month, from 1. *)
Definition DateFromTime (t : Z) : Z :=
  DayWithinYear t - DaysBeforeMonth (MonthFromTime t) (InLeapYear t) + 1.

Definition HourFromTime (t : Z) : Z := (t / 3600000) mod 24.
Definition MinFromTime (t : Z) : Z := (t / 60000) mod 60.
Definition SecFromTime (t : Z) : Z := (t / 1000) mod 60.
Definition msFromTime (t : Z) : Z := t mod 1000.

Definition DaysInMonth (y m : Z) : Z :=
  let leap := if DaysInYear y =? 366 then 1 else 0 in
  if m =? 1 then 28 + leap
  else if (m =? 3) || (m =? 5) || (m =? 8) || (m =? 10) then 30
  else 31.

(** The time value of midnight UTC at the start of day [d] of month [m]
    (0 to 11) of year [y]. *)
Definition MakeDate (y m d : Z) : Z :=
  (DayFromYear y
   + DaysBeforeMonth m (if DaysInYear y =? 366 then 1 else 0)
   + d - 1) * msPerDay.

(** The year, month (1 to 12) and day of a string of the date-only form
    [YYYY-MM-DD] that names a day that exists. *)
Definition date_only_fields (s : string) : option (Z * Z * Z) :=
  match s with
  | String y1 (String y2 (String y3 (String y4 (String sep1
      (String m1 (String m2 (String sep2
        (String d1 (String d2 EmptyString))))))))) =>
      if Ascii.eqb sep1 "-" && Ascii.eqb sep2 "-"
         && is_digit y1 && is_digit y2 && is_digit y3 && is_digit y4
         && is_digit m1 && is_digit m2 && is_digit d1 && is_digit d2
      then
        let y := 1000 * digit_value y1 + 100 * digit_value y2
                 + 10 * digit_value y3 + digit_value y4 in
        let m := 10 * digit_value m1 + digit_value m2 in
        let d := 10 * digit_value d1 + digit_value d2 in
        if (1 <=? m) && (m <=? 12) && (1 <=? d) && (d <=? DaysInMonth y (m - 1))
        then Some (y, m, d)
        else None
      else None
  | _ => None
  end.

(** [Date.parse] on the date-only form: the day is read as midnight UTC.
    [None] for every other string: what [Date.parse] makes of those is left
    to the host. *)
Definition parse_date_only (s : string) : option Z :=
  match date_only_fields s with
  | Some (y, m, d) => Some (MakeDate y (m - 1) d)
  | None => None
  end.

(** [date.toISOString()]: [YYYY-MM-DDTHH:mm:ss.sssZ] in UTC, the year with a
    sign and six digits outside 0..9999; throws on an invalid date. *)
Definition year_toISOString (y : Z) : string :=
  if (0 <=? y) && (y <=? 9999) then pad_digits 4 y
  else (if y <? 0 then "-" else "+") ++ pad_digits 6 (Z.abs y).

Definition toISOString (d : Date) : Completion string :=
  match d with
  | None => Throw (RangeError "Invalid time value")
  | Some t =>
      Normal (year_toISOString (YearFromTime t)
              ++ "-" ++ pad_digits 2 (MonthFromTime t + 1)
              ++ "-" ++ pad_digits 2 (DateFromTime t)
              ++ "T" ++ pad_digits 2 (HourFromTime t)
              ++ ":" ++ pad_digits 2 (MinFromTime t)
              ++ ":" ++ pad_digits 2 (SecFromTime t)
              ++ "." ++ pad_digits 3 (msFromTime t)
              ++ "Z")
  end.

(** The abbreviated month names of the [en-US] locale. *)
Definition month_short (m : Z) : string :=
  if m =? 0 then "Jan"
  else if m =? 1 then "Feb"
  else if m =? 2 then "Mar"
  else if m =? 3 then "Apr"
  else if m =? 4 then "May"
  else if m =? 5 then "Jun"
  else if m =? 6 then "Jul"
  else if m =? 7 then "Aug"
  else if m =? 8 then "Sep"
  else if m =? 9 then "Oct"
  else if m =? 10 then "Nov"
  else "Dec".

(** ** Effects

    What a run leaves behind: the calls made on [console], the URLs passed to
    [fetch], and how often the clock was read. *)

Inductive ConsoleCall : Type :=
| warn (msg : string)
| error (msg : string) (e : JsError).

Record World : Type := mkWorld {
  console : list ConsoleCall;
  requests : list string;
  clock_reads : nat
}.

Definition initial_world : World := mkWorld [] [] 0.

(** A computation that may throw and acts on the world.  An [async] function
    is run to its settlement: [await] of a rejected promise is a throw. *)
Definition M (A : Type) : Type := World -> Completion A * World.

Definition ret {A} (a : A) : M A := fun w => (Normal a, w).

Definition bind {A B} (c : M A) (k : A -> M B) : M B :=
  fun w =>
    match c w with
    | (Normal a, w') => k a w'
    | (Throw e, w') => (Throw e, w')
    end.

Definition throw {A} (e : JsError) : M A := fun w => (Throw e, w).

(** [try { body } catch (error) { handler }] *)
Definition try_catch {A} (body : M A) (handler : JsError -> M A) : M A :=
  fun w =>
    match body w with
    | (Normal a, w') => (Normal a, w')
    | (Throw e, w') => handler e w'
    end.

Definition lift {A} (c : Completion A) : M A := fun w => (c, w).

Definition console_warn (msg : string) : M unit :=
  fun w => (Normal tt,
            mkWorld (console w ++ [warn msg])%list (requests w) (clock_reads w)).

Definition console_error (msg : string) (e : JsError) : M unit :=
  fun w => (Normal tt,
            mkWorld (console w ++ [error msg e])%list (requests w)
                    (clock_reads w)).

(** ** [fetch] and [Response] *)

(** [await response.json()]: rejects when the body cannot be read as JSON,
    and gives the parsed value otherwise. *)
Inductive JsonResult (A : Type) : Type :=
| JsonRejects (e : JsError)
| JsonValue (data : A).
Arguments JsonRejects {A} e.
Arguments JsonValue {A} data.

Record Response (A : Type) : Type := mkResponse {
  status : N;
  body : JsonResult A
}.
Arguments mkResponse {A} status body.
Arguments status {A} r.
Arguments body {A} r.

(** [response.ok]: the status is in the range 200 to 299. *)
Definition ok {A} (r : Response A) : bool :=
  ((200 <=? status r) && (status r <=? 299))%N.

(** [await fetch(url)]: rejects on a network failure, and resolves with the
    response, whatever its status, otherwise. *)
Inductive FetchResult (A : Type) : Type :=
| FetchRejects (e : JsError)
| FetchResolves (r : Response A).
Arguments FetchRejects {A} e.
Arguments FetchResolves {A} r.

Definition json {A} (r : Response A) : M A :=
  match body r with
  | JsonRejects e => throw e
  | JsonValue data => ret data
  end.

End JS.

Declare Scope js_scope.
Delimit Scope js_scope with js.
Notation "x <- c ;; k" := (JS.bind c (fun x => k))
  (at level 61, c at next level, right associativity) : js_scope.
Notation "c ;; k" := (JS.bind c (fun _ => k))
  (at level 61, right associativity) : js_scope.

(* ===================================================================== *)
(** * [app/services/fredApi.ts] *)
(* ===================================================================== *)

Module FredApi.
Import JS.
Local Open Scope js_scope.

Definition FRED_API_BASE : string := "https://api.stlouisfed.org/fred".

Record FredObservation : Type := mkObservation {
  date : string;
  value : string
}.

(** The parsed body.  The annotation [data: FredSeriesResponse] is not
    checked when the code runs: [observations] is [None] when the parsed value
    carries no array under that name (the error bodies of the API do not), and
    then [data.observations.filter] throws a [TypeError], with a message of
    the host.  The observations of an array are taken at their declared type,
    [date] and [value] both strings. *)
Record FredSeriesResponse : Type := mkSeriesResponse {
  observations : option (list FredObservation)
}.

(** The chart-ready object [{ date, value }] the pipelines build. *)
Module Point.
Record t : Type := mk { date : string; value : Number }.
End Point.

(** The host the module runs on. *)
Record Host : Type := mkHost {
  (** [process.env.NEXT_PUBLIC_FRED_API_KEY], [None] when undefined *)
  NEXT_PUBLIC_FRED_API_KEY : option string;
  (** how [fetch] settles, by URL *)
  fetch_result : string -> FetchResult FredSeriesResponse;
  (** the time value the clock shows at its n-th reading *)
  clock : nat -> Z;
  (** the offset of local time from UTC, in milliseconds, at a time value *)
  LocalTZA : Z -> Z;
  (** [Date.parse] on the strings [parse_date_only] does not read *)
  Date_parse_other : string -> Date;
  (** the month-and-year label of a local time before the year 1 *)
  label_before_year_1 : Z -> string;
  (** the message of the [TypeError] that [data.observations.filter] throws
      on the body answered for a URL, when that body carries no array of
      observations: the wording depends on the body and on the engine *)
  observations_TypeError : string -> string
}.

Section OnHost.

Variable h : Host.

Definition API_KEY : option string := NEXT_PUBLIC_FRED_API_KEY h.

(** [Date.now()], and the time value of [new Date()]: a reading of the
    clock *)
Definition Date_now : M Z :=
  fun w => (Normal (clock h (clock_reads w)),
            mkWorld (console w) (requests w) (S (clock_reads w))).

Definition fetch (url : string) : M (Response FredSeriesResponse) :=
  fun w =>
    let w' := mkWorld (console w) (requests w ++ [url])%list (clock_reads w) in
    match fetch_result h url with
    | FetchRejects e => (Throw e, w')
    | FetchResolves r => (Normal r, w')
    end.

(** [new Date(s)] for a string [s] *)
Definition new_Date (s : string) : Date :=
  match parse_date_only s with
  | Some t => TimeClip t
  | None => Date_parse_other h s
  end.

(** [d.toLocaleDateString('en-US', { month: 'short', year: 'numeric' })]:
    the month and the year of [d] in the local time of the host. *)
Definition toLocaleDateString (d : Date) : string :=
  match d with
  | None => "Invalid Date"
  | Some t =>
      let local := t + LocalTZA h t in
      let y := YearFromTime local in
      if 1 <=? y
      then month_short (MonthFromTime local) ++ " " ++ N_to_string (Z.to_N y)
      else label_before_year_1 h local
  end.

(** [!s] for a string that may be undefined *)
Definition falsy (s : option string) : bool :=
  match s with
  | Some s => is_empty s
  | None => true
  end.

(** [s === lit] for a string that may be undefined *)
Definition strict_eq (s : option string) (lit : string) : bool :=
  match s with
  | Some s => (s =? lit)%string
  | None => false
  end.

Definition fetchFredSeries (seriesId : string) (startDate endDate : option string)
  : M (list FredObservation) :=
  if falsy API_KEY || strict_eq API_KEY "your_fred_api_key_here" then
    console_warn "FRED API key not configured. Using mock data." ;;
    ret []
  else
    let params : URLSearchParams :=
      [("series_id", seriesId);
       ("api_key", match API_KEY with Some key => key | None => "" end);
       ("file_type", "json")] in
    let params :=
      match startDate with
      | Some s =>
          if is_empty s then params else append params "observation_start" s
      | None => params
      end in
    let params :=
      match endDate with
      | Some s =>
          if is_empty s then params else append params "observation_end" s
      | None => params
      end in
    let url :=
      FRED_API_BASE ++ "/series/observations?" ++ params_toString params in
    try_catch
      (response <- fetch url ;;
       (if negb (ok response)
        then throw (Error ("FRED API error: " ++ N_to_string (status response)))
        else ret tt) ;;
       data <- json response ;;
       match observations data with
       | None => throw (TypeError (observations_TypeError h url))
       | Some all =>
           ret (filter (fun obs => negb (value obs =? ".")%string) all)
       end)
      (fun error =>
         console_error "Error fetching FRED data:" error ;;
         ret []).

Definition five_years_ms : Z := 5 * 365 * 24 * 60 * 60 * 1000.

Definition fetchCPIData : M (list Point.t) :=
  now <- Date_now ;;
  iso <- lift (toISOString (Some now)) ;;
  let endDate := split_first "T" iso in
  now <- Date_now ;;
  iso <- lift (toISOString (TimeClip (now - five_years_ms))) ;;
  let startDate := split_first "T" iso in
  data <- fetchFredSeries "CPALTT01USM657N" (Some startDate) (Some endDate) ;;
  ret (map (fun obs =>
              Point.mk (toLocaleDateString (new_Date (date obs)))
                       (parseFloat (value obs)))
           data).

Definition fetchUnemploymentData : M (list Point.t) :=
  now <- Date_now ;;
  iso <- lift (toISOString (Some now)) ;;
  let endDate := split_first "T" iso in
  now <- Date_now ;;
  iso <- lift (toISOString (TimeClip (now - five_years_ms))) ;;
  let startDate := split_first "T" iso in
  data <- fetchFredSeries "UNRATE" (Some startDate) (Some endDate) ;;
  ret (map (fun obs =>
              Point.mk (toLocaleDateString (new_Date (date obs)))
                       (parseFloat (value obs)))
           data).

Definition fetch10YearTreasuryData : M (list Point.t) :=
  now <- Date_now ;;
  iso <- lift (toISOString (Some now)) ;;
  let endDate := split_first "T" iso in
  now <- Date_now ;;
  iso <- lift (toISOString (TimeClip (now - five_years_ms))) ;;
  let startDate := split_first "T" iso in
  data <- fetchFredSeries "GS10" (Some startDate) (Some endDate) ;;
  ret (map (fun obs =>
              Point.mk (toLocaleDateString (new_Date (date obs)))
                       (parseFloat (value obs)))
           data).

Definition fetch3MonthTreasuryData : M (list Point.t) :=
  now <- Date_now ;;
  iso <- lift (toISOString (Some now)) ;;
  let endDate := split_first "T" iso in
  now <- Date_now ;;
  iso <- lift (toISOString (TimeClip (now - five_years_ms))) ;;
  let startDate := split_first "T" iso in
  data <- fetchFredSeries "TB3MS" (Some startDate) (Some endDate) ;;
  ret (map (fun obs =>
              Point.mk (toLocaleDateString (new_Date (date obs)))
                       (parseFloat (value obs)))
           data).

End OnHost.

End FredApi.

(* ===================================================================== *)
(** * [app/page.tsx]: the data-loading effect of [Home] *)
(* ===================================================================== *)

Module Page.
Import JS.

(** ** Promises on a time line

    A promise settles at some time, with a value or a rejection, or stays
    pending for ever. *)
Inductive Promise (A : Type) : Type :=
| Pending
| Settled (at_time : Z) (outcome : Completion A).
Arguments Pending {A}.
Arguments Settled {A} at_time outcome.

(** The earliest rejection among the promises, the first listed at equal
    times. *)
Fixpoint first_rejection {A} (ps : list (Promise A)) : option (Z * JsError) :=
  match ps with
  | [] => None
  | p :: rest =>
      match p, first_rejection rest with
      | Settled t (Throw e), Some (t', e') =>
          if t <=? t' then Some (t, e) else Some (t', e')
      | Settled t (Throw e), None => Some (t, e)
      | _, r => r
      end
  end.

(** When every promise fulfils: the time the last one does, and the values
    in the order of the promises. *)
Fixpoint all_fulfilled {A} (ps : list (Promise A)) : option (Z * list A) :=
  match ps with
  | [] => Some (0, [])
  | Settled t (Normal a) :: rest =>
      match all_fulfilled rest with
      | Some (t', values) => Some (Z.max t t', a :: values)
      | None => None
      end
  | _ :: _ => None
  end.

(** [Promise.all(ps)] of promises created at time 0 or later: rejected as
    soon as one of them rejects, fulfilled once all of them are, pending
    otherwise. *)
Definition Promise_all {A} (ps : list (Promise A)) : Promise (list A) :=
  match first_rejection ps with
  | Some (t, e) => Settled t (Throw e)
  | None =>
      match all_fulfilled ps with
      | Some (t, values) => Settled t (Normal values)
      | None => Pending
      end
  end.

(** ** The state of [Home] *)

Definition Series : Type := list FredApi.Point.t.

Record HomeState : Type := mkHome {
  cpiData : Series;
  laborData : Series;
  interest10YData : Series;
  interest3MData : Series;
  loading : bool
}.

(** The [useState] initial values. *)
Definition initial_state : HomeState := mkHome [] [] [] [] true.

Inductive Action : Type :=
| setCpiData (data : Series)
| setLaborData (data : Series)
| setInterest10YData (data : Series)
| setInterest3MData (data : Series)
| setLoading (flag : bool)
| console_error (msg : string) (e : JsError).

Definition apply (s : HomeState) (a : Action) : HomeState :=
  match a with
  | setCpiData d =>
      mkHome d (laborData s) (interest10YData s) (interest3MData s) (loading s)
  | setLaborData d =>
      mkHome (cpiData s) d (interest10YData s) (interest3MData s) (loading s)
  | setInterest10YData d =>
      mkHome (cpiData s) (laborData s) d (interest3MData s) (loading s)
  | setInterest3MData d =>
      mkHome (cpiData s) (laborData s) (interest10YData s) d (loading s)
  | setLoading b =>
      mkHome (cpiData s) (laborData s) (interest10YData s) (interest3MData s) b
  | console_error _ _ => s
  end.

(** What a run does to the state, in order, each action with its time. *)
Definition Timeline : Type := list (Z * Action).

(** The state once every action up to time [t] has been applied. *)
Definition state_at (tl : Timeline) (t : Z) : HomeState :=
  fold_left (fun s ta => if fst ta <=? t then apply s (snd ta) else s)
            tl initial_state.

(** [loadData()], called at time 0 on the four promises the pipeline calls
    return.  The [await] resumes when [Promise.all] settles; a result that is
    not an array of four cannot come from four promises. *)
Definition loadData (cpi unemployment treasury10Y treasury3M : Promise Series)
  : Timeline :=
  (0, setLoading true) ::
  match Promise_all [cpi; unemployment; treasury10Y; treasury3M] with
  | Pending => []
  | Settled t (Normal [cpi; unemployment; treasury10Y; treasury3M]) =>
      [(t, setCpiData cpi);
       (t, setLaborData unemployment);
       (t, setInterest10YData treasury10Y);
       (t, setInterest3MData treasury3M);
       (t, setLoading false)]
  | Settled t (Normal _) => [(t, setLoading false)]
  | Settled t (Throw e) =>
      [(t, console_error "Error loading FRED data:" e);
       (t, setLoading false)]
  end.

(** The effect of [Home] on a host: the four pipelines are called in order,
    and the promise of each settles, at the time the host gives, with the
    pipeline's outcome ([None]: the upstream never answers). *)
Definition useEffect (h : FredApi.Host) (settles : nat -> option Z)
  : Timeline :=
  let promise (i : nat) (c : Completion Series) : Promise Series :=
    match settles i with
    | Some t => Settled t c
    | None => Pending
    end in
  let '(cpi, w1) := FredApi.fetchCPIData h initial_world in
  let '(unemployment, w2) := FredApi.fetchUnemploymentData h w1 in
  let '(treasury10Y, w3) := FredApi.fetch10YearTreasuryData h w2 in
  let '(treasury3M, _) := FredApi.fetch3MonthTreasuryData h w3 in
  loadData (promise 0%nat cpi) (promise 1%nat unemployment)
           (promise 2%nat treasury10Y) (promise 3%nat treasury3M).

(** ** What [Home] renders *)

(** A bound of the value axis: a number, or ['auto']. *)
Inductive AxisBound : Type :=
| auto
| bound (x : Number).

Record ChartCardProps : Type := mkChartCardProps {
  title : string;
  data : Series;
  yAxisLabel : string;
  domain : option (Number * Number);
  ticks : option (list Number)
}.

(** What a [ChartCard] shows: its heading and legend, the points of the
    line with the keys of the two axes, and the value axis. *)
Record Chart : Type := mkChart {
  heading : string;
  legend : string;
  points : Series;
  x_dataKey : string;
  line_dataKey : string;
  y_label : string;
  y_domain : AxisBound * AxisBound;
  y_ticks : option (list Number)
}.

Definition ChartCard (props : ChartCardProps) : Chart :=
  mkChart (title props) (title props) (data props) "date" "value"
          (yAxisLabel props)
          (match domain props with
           | Some (lo, hi) => (bound lo, bound hi)
           | None => (auto, auto)
           end)
          (ticks props).

(** The main content of the page: the message while loading, and two rows of
    two charts afterwards. *)
Inductive View : Type :=
| loading_message (text : string)
| charts (rows : list (list Chart)).

Definition Home (s : HomeState) : View :=
  if loading s then loading_message "Loading economic data..."
  else
    charts
      [[ChartCard (mkChartCardProps "CPI - Growth Rate (Last 5 Years)"
                     (cpiData s) "Growth rate previous period" None None);
        ChartCard (mkChartCardProps "Unemployment Rate (Last 5 Years)"
                     (laborData s) "Percent" None None)];
       [ChartCard (mkChartCardProps "10-Year Treasury Constant Maturity Rate"
                     (interest10YData s) "Percent" None None);
        ChartCard (mkChartCardProps "3-Month Treasury Bill Rate"
                     (interest3MData s) "Percent" None None)]].

End Page.

(* ===================================================================== *)
(** * [app/components/Sidebar.tsx] *)
(* ===================================================================== *)

Module Sidebar.

(** A click handler: what it makes of the active item. *)
Definition Handler : Type := string -> string.

Record MenuItemProps : Type := mkMenuItemProps {
  icon : string;
  label : string;
  isActive : option bool;
  onClick : option Handler
}.

(** The button a [MenuItem] renders. *)
Record Button : Type := mkButton {
  button_onClick : option Handler;
  className : string;
  button_icon : string;
  button_label : string;
  chevron_className : string
}.

(** [isActive ? a : b] for a flag that may be undefined *)
Definition if_active {A} (flag : option bool) (a b : A) : A :=
  match flag with
  | Some true => a
  | _ => b
  end.

Definition MenuItem (props : MenuItemProps) : Button :=
  mkButton (onClick props)
           ("w-full flex items-center justify-between px-4 py-3 text-left transition-colors "
            ++ if_active (isActive props)
                 "bg-blue-600 text-white" "text-gray-700 hover:bg-gray-100")
           (icon props) (label props)
           (if_active (isActive props) "text-white" "text-gray-400").

(** The [useState] initial value of [activeItem]. *)
Definition initial_activeItem : string := "Key Indicators".

Definition menuItems : list (string * string) :=
  [("📈", "Key Indicators");
   ("📈", "Inflation");
   ("💼", "Employment");
   ("📊", "Interest Rates");
   ("📈", "Economic Growth");
   ("🌐", "Exchange Rates");
   ("🏠", "Housing");
   ("🛒", "Consumer Spending")].

(** The buttons of the menu when [activeItem] is the active one. *)
Definition Sidebar (activeItem : string) : list Button :=
  map (fun item =>
         MenuItem (mkMenuItemProps (fst item) (snd item)
                     (Some (activeItem =? snd item)%string)
                     (Some (fun _ => snd item))))
      menuItems.

(** A click on the [i]-th button of the menu runs its handler. *)
Definition click (activeItem : string) (i : nat) : string :=
  match nth_error (Sidebar activeItem) i with
  | Some button =>
      match button_onClick button with
      | Some handler => handler activeItem
      | None => activeItem
      end
  | None => activeItem
  end.

(** The active item after the clicks, from the first render. *)
Definition after_clicks (clicks : list nat) : string :=
  fold_left click clicks initial_activeItem.

End Sidebar.

(* ===================================================================== *)
(** * Vocabulary of the properties *)
(* ===================================================================== *)

Import JS FredApi.

(** ** The fetcher *)

(** The placeholder of the credential. *)
Definition placeholder : string := "your_fred_api_key_here".

(** The credential is one the fetcher accepts. *)
Definition configured (h : Host) : bool :=
  negb (falsy (API_KEY h) || strict_eq (API_KEY h) placeholder).

(** An observation that carries the sentinel for a missing value. *)
Definition sentinel (obs : FredObservation) : bool := (value obs =? ".")%string.

(** The observations the fetcher keeps. *)
Definition kept (all : list FredObservation) : list FredObservation :=
  filter (fun obs => negb (sentinel obs)) all.

(** [l] is [l'] with some elements left out, the rest in their order. *)
Inductive subsequence {A : Type} : list A -> list A -> Prop :=
| subsequence_nil : subsequence [] []
| subsequence_keep x l l' : subsequence l l' -> subsequence (x :: l) (x :: l')
| subsequence_drop x l l' : subsequence l l' -> subsequence l (x :: l').

(** The world after [msg] went to [console.warn]. *)
Definition warned (msg : string) (w : World) : World :=
  mkWorld (console w ++ [warn msg]) (requests w) (clock_reads w).

(** The world after a request for [url]. *)
Definition requested (url : string) (w : World) : World :=
  mkWorld (console w) (requests w ++ [url]) (clock_reads w).

(** The world after a request for [url] failed with [e], and [e] went to
    [console.error]. *)
Definition failed (url : string) (e : JsError) (w : World) : World :=
  mkWorld (console w ++ [error "Error fetching FRED data:" e])
          (requests w ++ [url]) (clock_reads w).

(** The world after [n] more readings of the clock. *)
Definition ticked (n : nat) (w : World) : World :=
  mkWorld (console w) (requests w) (n + clock_reads w).

(** The URL the fetcher asks for. *)
Definition request_url (h : Host) (seriesId : string)
    (startDate endDate : option string) : string :=
  let optional name (d : option string) : URLSearchParams :=
    match d with
    | Some s => if is_empty s then [] else [(name, s)]
    | None => []
    end in
  FRED_API_BASE ++ "/series/observations?"
  ++ params_toString
       ([("series_id", seriesId);
         ("api_key", match API_KEY h with Some key => key | None => "" end);
         ("file_type", "json")]
        ++ optional "observation_start" startDate
        ++ optional "observation_end" endDate)%list.

(** The error the fetcher raises on a response that is not [ok]. *)
Definition status_error (st : N) : JsError :=
  Error ("FRED API error: " ++ N_to_string st).

(** The error of reading [filter] off the body answered for [url], when it
    has no [observations]. *)
Definition no_observations_error (h : Host) (url : string) : JsError :=
  TypeError (observations_TypeError h url).

(** What the [try] block comes to once [url] was asked for: the kept
    observations, or the error thrown in it. *)
Definition attempt (h : Host) (url : string)
  : Completion (list FredObservation) :=
  match fetch_result h url with
  | FetchRejects e => Throw e
  | FetchResolves r =>
      if ok r then
        match body r with
        | JsonRejects e => Throw e
        | JsonValue data =>
            match observations data with
            | None => Throw (no_observations_error h url)
            | Some all => Normal (kept all)
            end
        end
      else Throw (status_error (status r))
  end.

(** How the call of the fetcher ends then: the [catch] turns the error into
    the empty sequence. *)
Definition settled (h : Host) (url : string) (w : World)
  : Completion (list FredObservation) * World :=
  match attempt h url with
  | Normal obs => (Normal obs, requested url w)
  | Throw e => (Normal [], failed url e w)
  end.

(** ** The pipelines *)

(** The Normalizer: what each pipeline maps over the observations it got. *)
Definition normalize (h : Host) (obs : FredObservation) : Point.t :=
  Point.mk (toLocaleDateString h (new_Date h (date obs)))
           (parseFloat (value obs)).

(** The four pipelines as one, with the series identifier as a parameter. *)
Definition pipeline (h : Host) (seriesId : string) : M (list Point.t) :=
  (now <- Date_now h ;;
   iso <- lift (toISOString (Some now)) ;;
   let endDate := split_first "T" iso in
   now <- Date_now h ;;
   iso <- lift (toISOString (TimeClip (now - five_years_ms))) ;;
   let startDate := split_first "T" iso in
   data <- fetchFredSeries h seriesId (Some startDate) (Some endDate) ;;
   ret (map (normalize h) data))%js.

(** The four pipeline functions of the module, each with the identifier of
    its series. *)
Definition pipelines : list (string * (Host -> M (list Point.t))) :=
  [("CPALTT01USM657N", fetchCPIData);
   ("UNRATE", fetchUnemploymentData);
   ("GS10", fetch10YearTreasuryData);
   ("TB3MS", fetch3MonthTreasuryData)].

(** The calendar date of a time value in UTC, as [YYYY-MM-DD]. *)
Definition ISO_date (t : Z) : string :=
  year_toISOString (YearFromTime t)
  ++ "-" ++ pad_digits 2 (MonthFromTime t + 1)
  ++ "-" ++ pad_digits 2 (DateFromTime t).

(** Every reading of the clock is a time value a [Date] can hold, and so is
    the time five years before it. *)
Definition plausible_clock (h : Host) : Prop :=
  forall n, five_years_ms - maxTime <= clock h n <= maxTime.

(** The URL a pipeline for [seriesId] asks for when it starts in the world
    [w]: the dates come from the next two readings of the clock. *)
Definition pipeline_url (h : Host) (seriesId : string) (w : World) : string :=
  request_url h seriesId
    (Some (ISO_date (clock h (S (clock_reads w)) - five_years_ms)))
    (Some (ISO_date (clock h (clock_reads w)))).

(** ** The calendar *)

(** 1 in a leap year, 0 otherwise. *)
Definition leap_of (y : Z) : Z := if DaysInYear y =? 366 then 1 else 0.

(** The month (0 to 11) of the day numbered [w] within a year. *)
Definition month_of (w leap : Z) : Z :=
  if w <? 31 then 0
  else if w <? 59 + leap then 1
  else if w <? 90 + leap then 2
  else if w <? 120 + leap then 3
  else if w <? 151 + leap then 4
  else if w <? 181 + leap then 5
  else if w <? 212 + leap then 6
  else if w <? 243 + leap then 7
  else if w <? 273 + leap then 8
  else if w <? 304 + leap then 9
  else if w <? 334 + leap then 10
  else 11.

(** ** The page controller *)

(** The time [Promise.all] waits until when the four pipelines fulfil at
    [t1] .. [t4]. *)
Definition slowest (t1 t2 t3 t4 : Z) : Z := Z.max (Z.max t1 t2) (Z.max t3 t4).

(** ** Hosts to run the module on *)

(** The three observations of the unemployment series from January to March
    2020, February's value missing. *)
Definition observations_2020 : list FredObservation :=
  [mkObservation "2020-01-01" "3.6";
   mkObservation "2020-02-01" ".";
   mkObservation "2020-03-01" "4.4"].

(** The same, February's value not a number. *)
Definition observations_not_available : list FredObservation :=
  [mkObservation "2020-01-01" "3.6";
   mkObservation "2020-02-01" "n/a";
   mkObservation "2020-03-01" "4.4"].

(** A host with credential [key], where every request settles as [answer],
    the clock stands at [now] and local time is [offset] from UTC. *)
Definition host_with (key : option string)
    (answer : FetchResult FredSeriesResponse) (now offset : Z) : Host :=
  mkHost key (fun _ => answer) (fun _ => now) (fun _ => offset)
         (fun _ => None) (fun _ => "")
         (fun _ => "Cannot read properties of undefined (reading 'filter')").

(** 2026-11-03T00:00:00Z *)
Definition a_day_in_2026 : Z := 1793664000000.

Definition answers_200 (obs : list FredObservation)
  : FetchResult FredSeriesResponse :=
  FetchResolves (mkResponse 200 (JsonValue (mkSeriesResponse (Some obs)))).

(** No credential. *)
Definition host_without_key : Host :=
  host_with None (answers_200 observations_2020) a_day_in_2026 0.

(** The upstream answers 500. *)
Definition host_500 : Host :=
  host_with (Some "abcdef0123456789")
            (FetchResolves
               (mkResponse 500 (JsonRejects (SyntaxError "Unexpected token <"))))
            a_day_in_2026 0.

(** The upstream answers 200 with a body that is not JSON. *)
Definition host_malformed : Host :=
  host_with (Some "abcdef0123456789")
            (FetchResolves
               (mkResponse 200 (JsonRejects (SyntaxError "Unexpected token <"))))
            a_day_in_2026 0.

(** The upstream answers 200 with the observations of 2020; local time is
    UTC. *)
Definition host_utc : Host :=
  host_with (Some "abcdef0123456789") (answers_200 observations_2020)
            a_day_in_2026 0.

(** The same, in New York: local time is five hours behind UTC. *)
Definition host_new_york : Host :=
  host_with (Some "abcdef0123456789") (answers_200 observations_2020)
            a_day_in_2026 (-5 * 3600000).

(** The upstream answers 200; the value for February is not a number. *)
Definition host_not_available : Host :=
  host_with (Some "abcdef0123456789") (answers_200 observations_not_available)
            a_day_in_2026 0.

(** ** Requests, promises and the menu *)

(** The part of the query string for an optional date: nothing for a date
    that is undefined or empty. *)
Definition date_param (name : string) (d : option string) : string :=
  match d with
  | Some s => if is_empty s then "" else "&" ++ name ++ "=" ++ urlencode s
  | None => ""
  end.

(** The number of dates that are neither undefined nor empty. *)
Definition dates_given (startDate endDate : option string) : nat :=
  (if falsy startDate then 0 else 1) + (if falsy endDate then 0 else 1).

(** The byte [c] lies between [lo] and [hi]. *)
Definition byte_between (lo hi : Z) (c : ascii) : bool :=
  (lo <=? ascii_code c) && (ascii_code c <=? hi).

(** The bytes are the UTF-8 form of a Unicode string: one to four bytes for
    each character, none overlong, none of a surrogate, none beyond
    U+10FFFF.  These are the JavaScript strings without a lone surrogate. *)
Fixpoint well_formed (s : string) : bool :=
  match s with
  | EmptyString => true
  | String c1 r1 =>
      if byte_between 0 127 c1 then well_formed r1
      else
        match r1 with
        | EmptyString => false
        | String c2 r2 =>
            if byte_between 194 223 c1
            then byte_between 128 191 c2 && well_formed r2
            else
              match r2 with
              | EmptyString => false
              | String c3 r3 =>
                  if byte_between 224 239 c1
                  then (if byte_between 224 224 c1 then byte_between 160 191 c2
                        else if byte_between 237 237 c1
                             then byte_between 128 159 c2
                             else byte_between 128 191 c2)
                       && byte_between 128 191 c3 && well_formed r3
                  else
                    match r3 with
                    | EmptyString => false
                    | String c4 r4 =>
                        byte_between 240 244 c1
                        && (if byte_between 240 240 c1
                            then byte_between 144 191 c2
                            else if byte_between 244 244 c1
                                 then byte_between 128 143 c2
                                 else byte_between 128 191 c2)
                        && byte_between 128 191 c3
                        && byte_between 128 191 c4
                        && well_formed r4
                    end
              end
        end
  end.

(** How often [c] occurs in [s]. *)
Fixpoint count_char (c : ascii) (s : string) : nat :=
  match s with
  | EmptyString => 0
  | String x rest => (if Ascii.eqb x c then 1 else 0) + count_char c rest
  end.

(** The value of a hexadecimal digit. *)
Definition hex_value (c : ascii) : Z :=
  let k := ascii_code c in
  if is_digit c then k - 48 else k - 55.

(** A left inverse of [urlencode]: [+] is read as a space and [%XY] as the
    byte with the (upper-case) hexadecimal digits [X] and [Y]. *)
Fixpoint urldecode (s : string) : string :=
  match s with
  | EmptyString => EmptyString
  | String c rest =>
      if Ascii.eqb c "+" then String " " (urldecode rest)
      else if Ascii.eqb c "%" then
        match rest with
        | String x (String y rest') =>
            String (ascii_of_nat (Z.to_nat (16 * hex_value x + hex_value y)))
                   (urldecode rest')
        | _ => String c (urldecode rest)
        end
      else String c (urldecode rest)
  end.

(** A promise that settles does so at or after the mount. *)
Definition after_mount {A} (p : Page.Promise A) : Prop :=
  match p with
  | Page.Settled t _ => 0 <= t
  | Page.Pending => True
  end.

(** The network is down. *)
Definition host_offline : Host :=
  host_with (Some "abcdef0123456789")
            (FetchRejects (TypeError "Failed to fetch")) a_day_in_2026 0.

(** The upstream answers 200 with a body without observations. *)
Definition host_no_observations : Host :=
  host_with (Some "abcdef0123456789")
            (FetchResolves (mkResponse 200 (JsonValue (mkSeriesResponse None))))
            a_day_in_2026 0.

(** The class of the button of the active item. *)
Definition active_className : string :=
  "w-full flex items-center justify-between px-4 py-3 text-left transition-colors bg-blue-600 text-white".

(** The button is drawn as the active one. *)
Definition highlighted (b : Sidebar.Button) : bool :=
  (Sidebar.className b =? active_className)%string.

(** The upstream answers 200 with the observations of 2020; local time is
    nine hours ahead of UTC, as in Tokyo. *)
Definition host_tokyo : Host :=
  host_with (Some "abcdef0123456789") (answers_200 observations_2020)
            a_day_in_2026 (9 * 3600000).

(** ** Proof automation for the month tables *)

(** Split a disjunction of month numbers into its cases. *)
Ltac each_month H :=
  repeat (destruct H as [H|H]; [subst|]); [.. | subst].

(** Evaluate the month tables at a month that is a numeral. *)
Ltac month_tables :=
  repeat match goal with
         | H : context [Z.pos ?p + 1] |- _ =>
             let v := eval cbv in (Z.pos p + 1) in
             change (Z.pos p + 1) with v in H
         | H : context [0 + 1] |- _ => change (0 + 1) with 1 in H
         | |- context [Z.pos ?p + 1] =>
             let v := eval cbv in (Z.pos p + 1) in
             change (Z.pos p + 1) with v
         | |- context [0 + 1] => change (0 + 1) with 1
         end;
  unfold DaysBeforeMonth, DaysInMonth in *;
  cbn [Z.eqb Pos.eqb orb] in *.

Ltac decide_tests :=
  repeat match goal with
         | |- context [if ?a <? ?b then _ else _] =>
             destruct (Z.ltb_spec a b); try lia
         end.

(* ===================================================================== *)
(** * Facts about the platform *)
(* ===================================================================== *)

(** ** Strings *)

Lemma string_app_assoc (a b c : string) : (a ++ b) ++ c = a ++ (b ++ c).
Proof. induction a as [|x a IH]; simpl; [reflexivity | now rewrite IH]. Qed.

Lemma string_app_nil_r (a : string) : a ++ "" = a.
Proof. induction a as [|x a IH]; simpl; [reflexivity | now rewrite IH]. Qed.

Lemma digit_char_not_T d :
  0 <= d < 10 -> Ascii.eqb (digit_char d) "T" = false.
Proof.
  intros Hd.
  assert (H : d = 0 \/ d = 1 \/ d = 2 \/ d = 3 \/ d = 4 \/ d = 5 \/ d = 6
              \/ d = 7 \/ d = 8 \/ d = 9) by lia.
  repeat (destruct H as [H|H]; [subst d; reflexivity|]).
  subst d; reflexivity.
Qed.

Lemma split_first_pad_digits width n rest :
  split_first "T" (pad_digits width n ++ rest)
  = pad_digits width n ++ split_first "T" rest.
Proof.
  revert n rest. induction width as [|width IH]; intros n rest; simpl.
  - reflexivity.
  - rewrite !string_app_assoc, IH. simpl.
    rewrite digit_char_not_T; [reflexivity|].
    apply Z.mod_pos_bound; lia.
Qed.

Lemma split_first_dash rest :
  split_first "T" ("-" ++ rest) = "-" ++ split_first "T" rest.
Proof. reflexivity. Qed.

Lemma split_first_plus rest :
  split_first "T" ("+" ++ rest) = "+" ++ split_first "T" rest.
Proof. reflexivity. Qed.

Lemma split_first_year y rest :
  split_first "T" (year_toISOString y ++ rest)
  = year_toISOString y ++ split_first "T" rest.
Proof.
  unfold year_toISOString.
  destruct ((0 <=? y) && (y <=? 9999)).
  - apply split_first_pad_digits.
  - destruct (y <? 0); rewrite !string_app_assoc;
      [rewrite split_first_dash | rewrite split_first_plus];
      now rewrite split_first_pad_digits.
Qed.

(** [toISOString().split('T')[0]] is the UTC date. *)
Lemma toISOString_split t :
  exists iso, toISOString (Some t) = Normal iso
              /\ split_first "T" iso = ISO_date t.
Proof.
  eexists. split; [reflexivity|].
  unfold ISO_date.
  rewrite split_first_year, split_first_dash, split_first_pad_digits,
    split_first_dash, split_first_pad_digits.
  simpl split_first.
  now rewrite string_app_nil_r.
Qed.

(** The sentinel itself does not parse as a number: the filter, not the
    parser, is what keeps it from the chart. *)
Lemma parseFloat_sentinel : parseFloat "." = NaN.
Proof. reflexivity. Qed.

(** ** The calendar *)

Lemma TimeClip_in_range t : Z.abs t <= maxTime -> TimeClip t = Some t.
Proof.
  intros H. unfold TimeClip.
  destruct (Z.leb_spec (Z.abs t) maxTime); [reflexivity | lia].
Qed.

Lemma Day_five_years_before t : Day (t - five_years_ms) = Day t - 5 * 365.
Proof.
  unfold Day, five_years_ms, msPerDay.
  replace (t - 5 * 365 * 24 * 60 * 60 * 1000)
    with (t + (- (5 * 365)) * 86400000) by lia.
  rewrite Z.div_add by lia. lia.
Qed.

(** [YearFromDay] is the year the day falls in. *)
Lemma YearFromDay_bounds d :
  DayFromYear (YearFromDay d) <= d < DayFromYear (YearFromDay d + 1).
Proof.
  unfold YearFromDay.
  set (y0 := 1970 + 400 * d / 146097).
  assert (Hy : 146097 * (y0 - 1970) <= 400 * d < 146097 * (y0 - 1970) + 146097).
  { unfold y0. pose proof (Z.div_mod (400 * d) 146097).
    pose proof (Z.mod_pos_bound (400 * d) 146097). lia. }
  clearbody y0.
  destruct (Z.ltb_spec d (DayFromYear y0)).
  - split; [|replace (y0 - 1 + 1) with y0 by lia; lia].
    unfold DayFromYear in *. Z.div_mod_to_equations. lia.
  - destruct (Z.leb_spec (DayFromYear (y0 + 1)) d).
    + split; [lia|].
      unfold DayFromYear in *. Z.div_mod_to_equations. lia.
    + lia.
Qed.

Lemma DayFromYear_next y : DayFromYear (y + 1) = DayFromYear y + DaysInYear y.
Proof.
  unfold DayFromYear, DaysInYear.
  destruct (Z.eqb_spec (y mod 4) 0) as [H4|H4]; cbn [negb].
  - destruct (Z.eqb_spec (y mod 100) 0) as [H100|H100]; cbn [negb].
    + destruct (Z.eqb_spec (y mod 400) 0) as [H400|H400]; cbn [negb].
      * Z.div_mod_to_equations. lia.
      * Z.div_mod_to_equations. lia.
    + assert (y mod 400 <> 0).
      { intros E. apply H100. Z.div_mod_to_equations. lia. }
      Z.div_mod_to_equations. lia.
  - assert (y mod 100 <> 0).
    { intros E. apply H4. Z.div_mod_to_equations. lia. }
    assert (y mod 400 <> 0).
    { intros E. apply H4. Z.div_mod_to_equations. lia. }
    Z.div_mod_to_equations. lia.
Qed.

Lemma DayFromYear_monotone y y' : y <= y' -> DayFromYear y <= DayFromYear y'.
Proof.
  intros H. unfold DayFromYear. Z.div_mod_to_equations. lia.
Qed.

Lemma YearFromDay_unique y d :
  DayFromYear y <= d < DayFromYear (y + 1) -> YearFromDay d = y.
Proof.
  intros H. pose proof (YearFromDay_bounds d) as B.
  destruct (Z.lt_trichotomy (YearFromDay d) y) as [Hlt|[Heq|Hgt]].
  - pose proof (DayFromYear_monotone (YearFromDay d + 1) y ltac:(lia)). lia.
  - exact Heq.
  - pose proof (DayFromYear_monotone (y + 1) (YearFromDay d) ltac:(lia)). lia.
Qed.

Lemma DaysInYear_cases y : DaysInYear y = 365 \/ DaysInYear y = 366.
Proof.
  unfold DaysInYear.
  destruct (y mod 4 =? 0), (y mod 100 =? 0), (y mod 400 =? 0); simpl; auto.
Qed.

Lemma leap_of_cases y :
  (leap_of y = 0 /\ DaysInYear y = 365) \/ (leap_of y = 1 /\ DaysInYear y = 366).
Proof.
  unfold leap_of. destruct (DaysInYear_cases y) as [E|E]; rewrite E; auto.
Qed.

Lemma month_cases m :
  0 <= m <= 11 ->
  m = 0 \/ m = 1 \/ m = 2 \/ m = 3 \/ m = 4 \/ m = 5 \/ m = 6
  \/ m = 7 \/ m = 8 \/ m = 9 \/ m = 10 \/ m = 11.
Proof. lia. Qed.

(** A day of month [m] lies, within its year, after the days before [m] and
    before those of the next month. *)
Lemma day_within_month y m d :
  0 <= m <= 11 -> 1 <= d <= DaysInMonth y m ->
  let w := DaysBeforeMonth m (leap_of y) + d - 1 in
  0 <= w < DaysInYear y
  /\ DaysBeforeMonth m (leap_of y) <= w
  /\ (m < 11 -> w < DaysBeforeMonth (m + 1) (leap_of y)).
Proof.
  intros Hm Hd w. subst w.
  unfold DaysInMonth in Hd. change (if DaysInYear y =? 366 then 1 else 0)
    with (leap_of y) in Hd. cbv zeta in Hd.
  apply month_cases in Hm.
  destruct (leap_of_cases y) as [[L D]|[L D]]; rewrite L in *; rewrite D;
    each_month Hm; month_tables; lia.
Qed.

Lemma month_of_unique w leap m :
  0 <= m <= 11 -> 0 <= leap <= 1 ->
  DaysBeforeMonth m leap <= w ->
  (m < 11 -> w < DaysBeforeMonth (m + 1) leap) ->
  month_of w leap = m.
Proof.
  intros Hm Hl Hlo Hhi. apply month_cases in Hm. unfold month_of.
  each_month Hm; month_tables; decide_tests; reflexivity.
Qed.

(** The year, month and day of a time within day [d] of month [m] of year
    [y] are [y], [m] and [d]. *)
Lemma civil_of_MakeDate y m d off :
  0 <= m <= 11 -> 1 <= d <= DaysInMonth y m -> 0 <= off < msPerDay ->
  let t := MakeDate y m d + off in
  YearFromTime t = y /\ MonthFromTime t = m /\ DateFromTime t = d.
Proof.
  intros Hm Hd Hoff t.
  destruct (day_within_month y m d Hm Hd) as (Hw & Hlo & Hhi).
  assert (HDay : Day t = DayFromYear y + DaysBeforeMonth m (leap_of y) + d - 1).
  { unfold t, Day, MakeDate. fold (leap_of y).
    rewrite Z.div_add_l by (unfold msPerDay; lia).
    rewrite Z.div_small by lia. lia. }
  assert (HY : YearFromTime t = y).
  { unfold YearFromTime. apply YearFromDay_unique.
    rewrite DayFromYear_next, HDay. lia. }
  assert (HW : DayWithinYear t = DaysBeforeMonth m (leap_of y) + d - 1).
  { unfold DayWithinYear. rewrite HY, HDay. lia. }
  assert (HL : InLeapYear t = leap_of y).
  { unfold InLeapYear. now rewrite HY. }
  assert (HM : MonthFromTime t = m).
  { change (MonthFromTime t) with (month_of (DayWithinYear t) (InLeapYear t)).
    rewrite HW, HL. apply month_of_unique; try assumption.
    destruct (leap_of_cases y) as [[L _]|[L _]]; lia. }
  repeat split; try assumption.
  unfold DateFromTime. rewrite HW, HM, HL. lia.
Qed.

Lemma is_digit_value c : is_digit c = true -> 0 <= digit_value c <= 9.
Proof.
  unfold is_digit, digit_value. intros H.
  apply andb_true_iff in H as [H1 H2].
  apply Z.leb_le in H1, H2. lia.
Qed.

(** What [date_only_fields] reads is a day that exists, of a year of four
    digits. *)
Lemma date_only_fields_valid s y m d :
  date_only_fields s = Some (y, m, d) ->
  0 <= y <= 9999 /\ 1 <= m <= 12 /\ 1 <= d <= DaysInMonth y (m - 1).
Proof.
  unfold date_only_fields.
  destruct s as [|y1 s]; [discriminate|].
  destruct s as [|y2 s]; [discriminate|].
  destruct s as [|y3 s]; [discriminate|].
  destruct s as [|y4 s]; [discriminate|].
  destruct s as [|sep1 s]; [discriminate|].
  destruct s as [|m1 s]; [discriminate|].
  destruct s as [|m2 s]; [discriminate|].
  destruct s as [|sep2 s]; [discriminate|].
  destruct s as [|d1 s]; [discriminate|].
  destruct s as [|d2 s]; [discriminate|].
  destruct s; [|discriminate].
  cbv zeta.
  remember (1000 * digit_value y1 + 100 * digit_value y2
            + 10 * digit_value y3 + digit_value y4) as Y eqn:HY.
  remember (10 * digit_value m1 + digit_value m2) as Mo eqn:HM.
  remember (10 * digit_value d1 + digit_value d2) as Dy eqn:HD.
  destruct (_ && _) eqn:Hchars; [|discriminate].
  repeat (apply andb_true_iff in Hchars as [Hchars ?]).
  repeat match goal with
         | H : is_digit _ = true |- _ => apply is_digit_value in H
         end.
  destruct (_ && _) eqn:Hrange; [|discriminate].
  repeat (apply andb_true_iff in Hrange as [Hrange ?]).
  intros E. injection E as Ey Em Ed. subst y m d.
  repeat match goal with
         | H : (_ <=? _) = true |- _ => apply Z.leb_le in H
         end.
  lia.
Qed.

Lemma DayFromYear_four_digits y :
  0 <= y <= 9999 -> -719528 <= DayFromYear y <= 2932532.
Proof.
  intros H. unfold DayFromYear. Z.div_mod_to_equations. lia.
Qed.

(** A day of a year of four digits is a time value a [Date] can hold. *)
Lemma MakeDate_in_range y m d :
  0 <= y <= 9999 -> 0 <= m <= 11 -> 1 <= d <= DaysInMonth y m ->
  Z.abs (MakeDate y m d) <= maxTime.
Proof.
  intros Hy Hm Hd.
  destruct (day_within_month y m d Hm Hd) as (Hw & _ & _).
  pose proof (DayFromYear_four_digits y Hy) as HD.
  pose proof (DaysInYear_cases y) as HY.
  unfold MakeDate. change (if DaysInYear y =? 366 then 1 else 0) with (leap_of y).
  unfold msPerDay, maxTime. lia.
Qed.

Lemma DaysInMonth_positive y m : 1 <= DaysInMonth y m.
Proof.
  unfold DaysInMonth.
  destruct (DaysInYear y =? 366), (m =? 1), ((m =? 3) || (m =? 5) || (m =? 8) || (m =? 10));
    lia.
Qed.

(** The day before the first of a month is the last of the month before. *)
Lemma MakeDate_before_first y m :
  1 <= m <= 11 ->
  MakeDate y m 1 - msPerDay = MakeDate y (m - 1) (DaysInMonth y (m - 1)).
Proof.
  intros Hm. unfold MakeDate.
  change (if DaysInYear y =? 366 then 1 else 0) with (leap_of y).
  assert (H : DaysBeforeMonth m (leap_of y)
              = DaysBeforeMonth (m - 1) (leap_of y) + DaysInMonth y (m - 1)).
  { assert (Hc : m = 1 \/ m = 2 \/ m = 3 \/ m = 4 \/ m = 5 \/ m = 6 \/ m = 7
                 \/ m = 8 \/ m = 9 \/ m = 10 \/ m = 11) by lia.
    unfold DaysInMonth.
    change (if DaysInYear y =? 366 then 1 else 0) with (leap_of y).
    cbv zeta. generalize (leap_of y) as l. intros l.
    each_month Hc;
      repeat match goal with
             | |- context [Z.pos ?p - 1] =>
                 let v := eval cbv in (Z.pos p - 1) in
                 change (Z.pos p - 1) with v
             end;
      unfold DaysBeforeMonth; cbn [Z.eqb Pos.eqb orb]; lia. }
  rewrite H. lia.
Qed.

(** The day before the first of January is the 31st of December. *)
Lemma MakeDate_before_new_year y :
  MakeDate y 0 1 - msPerDay = MakeDate (y - 1) 11 31.
Proof.
  unfold MakeDate.
  change (if DaysInYear (y - 1) =? 366 then 1 else 0) with (leap_of (y - 1)).
  pose proof (DayFromYear_next (y - 1)) as H.
  replace (y - 1 + 1) with y in H by lia.
  change (DaysBeforeMonth 0 (if DaysInYear y =? 366 then 1 else 0)) with 0.
  change (DaysBeforeMonth 11 (leap_of (y - 1))) with (334 + leap_of (y - 1)).
  destruct (leap_of_cases (y - 1)) as [[L D]|[L D]]; rewrite L; lia.
Qed.

Lemma new_Date_date_only h s y m d :
  date_only_fields s = Some (y, m, d) ->
  new_Date h s = Some (MakeDate y (m - 1) d).
Proof.
  intros E. unfold new_Date, parse_date_only. rewrite E.
  destruct (date_only_fields_valid _ _ _ _ E) as (Hy & Hm & Hd).
  apply TimeClip_in_range, MakeDate_in_range; lia.
Qed.

(** X17. Where local time is UTC or ahead of it, the label of an observation
    whose date is a [YYYY-MM-DD] of the year 1 or later is the month and the
    year its date names. *)
Lemma label_at_or_east_of_UTC h obs y m d :
  date_only_fields (date obs) = Some (y, m, d) ->
  1 <= y ->
  0 <= LocalTZA h (MakeDate y (m - 1) d) < msPerDay ->
  Point.date (normalize h obs)
  = month_short (m - 1) ++ " " ++ N_to_string (Z.to_N y).
Proof.
  intros E Hy1 Hoff.
  destruct (date_only_fields_valid _ _ _ _ E) as (Hy & Hm & Hd).
  unfold normalize. cbn [Point.date].
  rewrite (new_Date_date_only h _ _ _ _ E). unfold toLocaleDateString.
  destruct (civil_of_MakeDate y (m - 1) d
              (LocalTZA h (MakeDate y (m - 1) d)) ltac:(lia) Hd Hoff)
    as (HY & HM & _).
  rewrite HY, HM.
  destruct (Z.leb_spec 1 y); [reflexivity | lia].
Qed.

(** X18. Where local time is behind UTC, an observation dated the first of a
    month is labelled with the month before it. *)
Lemma label_west_of_UTC h obs y m :
  date_only_fields (date obs) = Some (y, m, 1) ->
  2 <= y ->
  - msPerDay <= LocalTZA h (MakeDate y (m - 1) 1) < 0 ->
  Point.date (normalize h obs)
  = if m =? 1
    then "Dec " ++ N_to_string (Z.to_N (y - 1))
    else month_short (m - 2) ++ " " ++ N_to_string (Z.to_N y).
Proof.
  intros E Hy2 Hoff.
  destruct (date_only_fields_valid _ _ _ _ E) as (Hy & Hm & Hd).
  unfold normalize. cbn [Point.date].
  rewrite (new_Date_date_only h _ _ _ _ E). unfold toLocaleDateString.
  set (off := LocalTZA h (MakeDate y (m - 1) 1)) in *.
  destruct (Z.eqb_spec m 1) as [->|Hm1].
  - replace (MakeDate y (1 - 1) 1 + off)
      with (MakeDate (y - 1) 11 31 + (off + msPerDay))
      by (rewrite <- MakeDate_before_new_year; change (1 - 1) with 0; lia).
    destruct (civil_of_MakeDate (y - 1) 11 31 (off + msPerDay))
      as (HY & HM & _); [lia | | lia |].
    { change (DaysInMonth (y - 1) 11) with 31. lia. }
    rewrite HY, HM.
    destruct (Z.leb_spec 1 (y - 1)); [reflexivity | lia].
  - replace (MakeDate y (m - 1) 1 + off)
      with (MakeDate y (m - 2) (DaysInMonth y (m - 2)) + (off + msPerDay)).
    2:{ replace (m - 2) with (m - 1 - 1) by lia.
        rewrite <- MakeDate_before_first by lia. lia. }
    pose proof (DaysInMonth_positive y (m - 2)).
    destruct (civil_of_MakeDate y (m - 2) (DaysInMonth y (m - 2))
                (off + msPerDay)) as (HY & HM & _); [lia | lia | lia |].
    rewrite HY, HM.
    destruct (Z.leb_spec 1 y); [reflexivity | lia].
Qed.

(* ===================================================================== *)
(** * Runs of the fetcher and of the pipelines *)
(* ===================================================================== *)

Lemma host_with_plausible_clock key answer offset :
  plausible_clock (host_with key answer a_day_in_2026 offset).
Proof. intros n. cbv. split; discriminate. Qed.

Lemma app_one_neq {A} (l : list A) (x : A) : l <> (l ++ [x])%list.
Proof.
  intros H. apply (f_equal (@List.length A)) in H.
  rewrite length_app in H. simpl in H. lia.
Qed.

Lemma kept_subsequence all : subsequence (kept all) all.
Proof.
  induction all as [|o all IH]; simpl.
  - constructor.
  - destruct (negb (sentinel o)); now constructor.
Qed.

Lemma kept_length all :
  List.length (kept all)
  = (List.length all - List.length (filter sentinel all))%nat.
Proof.
  assert (H : (List.length (kept all) + List.length (filter sentinel all)
               = List.length all)%nat).
  { induction all as [|o all IH]; simpl; [reflexivity|].
    destruct (sentinel o); simpl; lia. }
  lia.
Qed.

Lemma kept_app l1 l2 : kept (l1 ++ l2) = (kept l1 ++ kept l2)%list.
Proof. apply filter_app. Qed.

Lemma kept_not_sentinel all : Forall (fun o => value o <> ".") (kept all).
Proof.
  apply Forall_forall. intros o Ho.
  apply filter_In in Ho as [_ Ho]. unfold sentinel in Ho.
  apply negb_true_iff in Ho. now apply String.eqb_neq in Ho.
Qed.

(** The credential is refused when it is undefined, empty or the
    placeholder, and only then. *)
Lemma configured_false h :
  configured h = false
  <-> API_KEY h = None \/ API_KEY h = Some "" \/ API_KEY h = Some placeholder.
Proof.
  unfold configured. rewrite negb_false_iff, orb_true_iff.
  destruct (API_KEY h) as [key|]; simpl.
  - split.
    + intros [H|H].
      * destruct key; [auto | discriminate].
      * apply String.eqb_eq in H. subst key. auto.
    + intros [H|[H|H]]; try discriminate; injection H as ->.
      * now left.
      * right. apply String.eqb_refl.
  - split; auto.
Qed.

(** The URL of a request, with both dates. *)
Lemma request_url_example :
  request_url host_utc "UNRATE" (Some "2021-11-04") (Some "2026-11-03")
  = "https://api.stlouisfed.org/fred/series/observations?series_id=UNRATE&api_key=abcdef0123456789&file_type=json&observation_start=2021-11-04&observation_end=2026-11-03".
Proof. reflexivity. Qed.

Section Runs.

Variable h : Host.

Lemma fetchFredSeries_unconfigured seriesId startDate endDate w :
  configured h = false ->
  fetchFredSeries h seriesId startDate endDate w
  = (Normal [], warned "FRED API key not configured. Using mock data." w).
Proof.
  unfold configured, fetchFredSeries. intros Hc.
  apply negb_false_iff in Hc. fold placeholder. rewrite Hc. reflexivity.
Qed.

Lemma fetchFredSeries_configured seriesId startDate endDate w :
  configured h = true ->
  fetchFredSeries h seriesId startDate endDate w
  = settled h (request_url h seriesId startDate endDate) w.
Proof.
  unfold configured, fetchFredSeries. intros Hc.
  apply negb_true_iff in Hc. fold placeholder. rewrite Hc.
  match goal with
  | |- context [fetch h ?u] =>
      replace u with (request_url h seriesId startDate endDate)
  end.
  2:{ unfold request_url, append.
      destruct startDate as [s|], endDate as [e|];
        try destruct (is_empty s); try destruct (is_empty e); reflexivity. }
  generalize (request_url h seriesId startDate endDate) as url. intros url.
  unfold try_catch, bind, fetch, json, settled, attempt, throw, ret,
    console_error.
  destruct (fetch_result h url) as [e|r]; [reflexivity|].
  destruct (ok r); simpl; [|reflexivity].
  destruct (body r) as [e|data]; simpl; [reflexivity|].
  destruct (observations data); reflexivity.
Qed.

(** A call of the fetcher that asked for [url] ends by what came back. *)
Lemma fetchFredSeries_request seriesId startDate endDate w out w' url :
  fetchFredSeries h seriesId startDate endDate w = (out, w') ->
  requests w' = (requests w ++ [url])%list ->
  (out, w') = settled h url w.
Proof.
  intros Hrun Hreq.
  destruct (configured h) eqn:Hc.
  - rewrite (fetchFredSeries_configured _ _ _ _ Hc) in Hrun.
    assert (Hu : url = request_url h seriesId startDate endDate).
    { unfold settled in Hrun.
      destruct (attempt h _); inversion Hrun; subst out w'; simpl in Hreq;
        now apply app_inj_tail in Hreq as [_ Hu]. }
    now rewrite Hu, Hrun.
  - rewrite (fetchFredSeries_unconfigured _ _ _ _ Hc) in Hrun.
    inversion Hrun; subst out w'. simpl in Hreq.
    now apply app_one_neq in Hreq.
Qed.

(** The fetcher always returns a sequence. *)
Lemma fetchFredSeries_returns seriesId startDate endDate w :
  exists obs w',
    fetchFredSeries h seriesId startDate endDate w = (Normal obs, w')
    /\ Forall (fun o => value o <> ".") obs.
Proof.
  assert (Hk : forall all, Forall (fun o => value o <> ".") (kept all)).
  { intros all. apply Forall_forall. intros o Ho.
    apply filter_In in Ho as [_ Ho]. unfold sentinel in Ho.
    apply negb_true_iff in Ho. now apply String.eqb_neq in Ho. }
  destruct (configured h) eqn:Hc.
  - rewrite (fetchFredSeries_configured _ _ _ _ Hc). unfold settled.
    destruct (attempt h _) as [obs|e] eqn:Ha.
    + exists obs, (requested (request_url h seriesId startDate endDate) w).
      split; [reflexivity|].
      unfold attempt in Ha.
      destruct (fetch_result h _) as [e|r]; [discriminate|].
      destruct (ok r); [|discriminate].
      destruct (body r) as [e|data]; [discriminate|].
      destruct (observations data) as [all|]; [|discriminate].
      inversion Ha. apply Hk.
    + eexists [], _. split; [reflexivity | constructor].
  - rewrite (fetchFredSeries_unconfigured _ _ _ _ Hc).
    eexists [], _. split; [reflexivity | constructor].
Qed.

Lemma pipelines_shape seriesId P :
  In (seriesId, P) pipelines -> P = fun h => pipeline h seriesId.
Proof.
  unfold pipelines. simpl.
  intros [H|[H|[H|[H|[]]]]]; inversion H; reflexivity.
Qed.

(** A pipeline reads the clock twice and calls the fetcher with the UTC date
    five years of 365 days before the second reading as the start, and the
    UTC date of the first reading as the end; it maps the Normalizer over what
    comes back. *)
Lemma pipeline_run seriesId w :
  Z.abs (clock h (S (clock_reads w)) - five_years_ms) <= maxTime ->
  pipeline h seriesId w
  = match fetchFredSeries h seriesId
            (Some (ISO_date (clock h (S (clock_reads w)) - five_years_ms)))
            (Some (ISO_date (clock h (clock_reads w))))
            (ticked 2 w) with
    | (Normal data, w') => (Normal (map (normalize h) data), w')
    | (Throw e, w') => (Throw e, w')
    end.
Proof.
  intros Hr. unfold pipeline.
  destruct (toISOString_split (clock h (clock_reads w))) as (iso1 & E1 & S1).
  destruct (toISOString_split (clock h (S (clock_reads w)) - five_years_ms))
    as (iso2 & E2 & S2).
  unfold bind at 1. unfold Date_now at 1. cbn beta iota.
  unfold bind at 1. rewrite E1. unfold lift at 1. cbn beta iota.
  unfold bind at 1. unfold Date_now at 1. cbn beta iota. cbn [clock_reads].
  unfold bind at 1. rewrite (TimeClip_in_range _ Hr), E2.
  unfold lift at 1. cbn beta iota.
  rewrite S1, S2. unfold bind, ret, ticked. cbn [console requests clock_reads].
  reflexivity.
Qed.

Lemma pipeline_clock_out_of_range seriesId w :
  maxTime < Z.abs (clock h (S (clock_reads w)) - five_years_ms) ->
  pipeline h seriesId w
  = (Throw (RangeError "Invalid time value"), ticked 2 w).
Proof.
  intros Hr. unfold pipeline.
  destruct (toISOString_split (clock h (clock_reads w))) as (iso1 & E1 & S1).
  unfold bind at 1. unfold Date_now at 1. cbn beta iota.
  unfold bind at 1. rewrite E1. unfold lift at 1. cbn beta iota.
  unfold bind at 1. unfold Date_now at 1. cbn beta iota. cbn [clock_reads].
  unfold bind at 1. unfold TimeClip.
  destruct (Z.leb_spec (Z.abs (clock h (S (clock_reads w)) - five_years_ms))
                       maxTime); [lia|].
  reflexivity.
Qed.

(** A run of a pipeline that asked for [url] ends by what came back for it:
    the kept observations normalized, or the empty sequence with the error
    on the console. *)
Lemma pipeline_request seriesId w out w' url :
  pipeline h seriesId w = (out, w') ->
  requests w' = (requests w ++ [url])%list ->
  (out, w')
  = match attempt h url with
    | Normal obs => (Normal (map (normalize h) obs), requested url (ticked 2 w))
    | Throw e => (Normal [], failed url e (ticked 2 w))
    end.
Proof.
  intros Hrun Hreq.
  destruct (Z.leb_spec (Z.abs (clock h (S (clock_reads w)) - five_years_ms))
                       maxTime) as [Hr|Hr].
  - rewrite (pipeline_run _ _ Hr) in Hrun.
    destruct (configured h) eqn:Hc.
    + rewrite (fetchFredSeries_configured _ _ _ _ Hc) in Hrun.
      unfold settled in Hrun.
      destruct (attempt h (request_url h seriesId _ _)) as [obs|e] eqn:Ha;
        inversion Hrun; subst out w'; clear Hrun;
        simpl in Hreq; apply app_inj_tail in Hreq as [_ Hu]; subst url;
        rewrite Ha; reflexivity.
    + rewrite (fetchFredSeries_unconfigured _ _ _ _ Hc) in Hrun.
      inversion Hrun; subst out w'. simpl in Hreq.
      now apply app_one_neq in Hreq.
  - rewrite (pipeline_clock_out_of_range _ _ Hr) in Hrun.
    inversion Hrun; subst out w'. simpl in Hreq.
    now apply app_one_neq in Hreq.
Qed.

(** Under a plausible clock a pipeline returns the normalized output of the
    fetcher. *)
Lemma pipeline_returns seriesId w :
  plausible_clock h ->
  exists obs w',
    pipeline h seriesId w = (Normal (map (normalize h) obs), w')
    /\ Forall (fun o => value o <> ".") obs.
Proof.
  intros Hclock.
  assert (Hr : Z.abs (clock h (S (clock_reads w)) - five_years_ms) <= maxTime).
  { specialize (Hclock (S (clock_reads w))).
    unfold five_years_ms, maxTime in *. lia. }
  rewrite (pipeline_run _ _ Hr).
  destruct (fetchFredSeries_returns seriesId
              (Some (ISO_date (clock h (S (clock_reads w)) - five_years_ms)))
              (Some (ISO_date (clock h (clock_reads w)))) (ticked 2 w))
    as (obs & w' & E & Hobs).
  rewrite E. now exists obs, w'.
Qed.

(** A run of a pipeline that got a successful response with the
    observations [all] returns the Normalizer mapped over the kept ones. *)
Lemma pipeline_success seriesId P w out w' url r all :
  In (seriesId, P) pipelines ->
  P h w = (out, w') ->
  requests w' = (requests w ++ [url])%list ->
  fetch_result h url = FetchResolves r ->
  ok r = true ->
  body r = JsonValue (mkSeriesResponse (Some all)) ->
  out = Normal (map (normalize h) (kept all)).
Proof.
  intros HP Hrun Hreq Hfetch Hok Hbody.
  rewrite (pipelines_shape _ _ HP) in *.
  pose proof (pipeline_request _ _ _ _ _ Hrun Hreq) as E.
  unfold attempt in E. rewrite Hfetch, Hok, Hbody in E. simpl in E.
  now inversion E.
Qed.

(** What a call of the fetcher returns: nothing, or the kept observations of
    the successful response to its request. *)
Lemma fetchFredSeries_result seriesId startDate endDate w :
  exists obs w',
    fetchFredSeries h seriesId startDate endDate w = (Normal obs, w')
    /\ Forall (fun o => value o <> ".") obs
    /\ (obs = []
        \/ exists r all,
             fetch_result h (request_url h seriesId startDate endDate)
             = FetchResolves r
             /\ ok r = true
             /\ body r = JsonValue (mkSeriesResponse (Some all))
             /\ obs = kept all).
Proof.
  destruct (configured h) eqn:Hc.
  - rewrite (fetchFredSeries_configured _ _ _ _ Hc). unfold settled.
    destruct (attempt h _) as [obs|e] eqn:Ha.
    + exists obs, (requested (request_url h seriesId startDate endDate) w).
      split; [reflexivity|].
      unfold attempt in Ha.
      destruct (fetch_result h _) as [e|r] eqn:Hf; [discriminate|].
      destruct (ok r) eqn:Hok; [|discriminate].
      destruct (body r) as [e|[[all|]]] eqn:Hb; try discriminate.
      injection Ha as <-.
      split; [apply kept_not_sentinel|].
      right. now exists r, all.
    + eexists [], _. split; [reflexivity|]. split; [constructor | now left].
  - rewrite (fetchFredSeries_unconfigured _ _ _ _ Hc).
    eexists [], _. split; [reflexivity|]. split; [constructor | now left].
Qed.

(** A pipeline on a host with a credential and a plausible clock ends by
    what comes back for its URL. *)
Lemma pipeline_answered seriesId w :
  configured h = true ->
  plausible_clock h ->
  pipeline h seriesId w
  = match attempt h (pipeline_url h seriesId w) with
    | Normal obs =>
        (Normal (map (normalize h) obs),
         requested (pipeline_url h seriesId w) (ticked 2 w))
    | Throw e =>
        (Normal [], failed (pipeline_url h seriesId w) e (ticked 2 w))
    end.
Proof.
  intros Hc Hclock.
  assert (Hr : Z.abs (clock h (S (clock_reads w)) - five_years_ms) <= maxTime).
  { specialize (Hclock (S (clock_reads w))).
    unfold five_years_ms, maxTime in *. lia. }
  rewrite (pipeline_run _ _ Hr), (fetchFredSeries_configured _ _ _ _ Hc).
  unfold settled, pipeline_url. destruct (attempt h _); reflexivity.
Qed.

End Runs.

(* ===================================================================== *)
(** * The claims on errors and the credential *)
(* ===================================================================== *)

(** C4. Without a credential ([API_KEY] undefined), or with the placeholder
    for one, [fetchFredSeries] returns the empty sequence and makes no
    request, whatever the series and the dates. *)
Theorem fetchFredSeries_without_credential
    h seriesId startDate endDate w :
  API_KEY h = None \/ API_KEY h = Some "your_fred_api_key_here" ->
  exists w',
    fetchFredSeries h seriesId startDate endDate w = (Normal [], w')
    /\ requests w' = requests w.
Proof.
  intros Hkey.
  assert (Hc : configured h = false).
  { unfold configured. destruct Hkey as [-> | ->]; reflexivity. }
  rewrite (fetchFredSeries_unconfigured _ _ _ _ _ Hc).
  eexists. split; reflexivity.
Qed.

Lemma fetchFredSeries_without_credential_witness :
  API_KEY host_without_key = None
  /\ exists w',
       fetchFredSeries host_without_key "UNRATE"
         (Some "2020-01-01") (Some "2020-03-01") initial_world
       = (Normal [], w')
       /\ requests w' = [].
Proof.
  split; [reflexivity|].
  apply (fetchFredSeries_without_credential host_without_key "UNRATE"
           (Some "2020-01-01") (Some "2020-03-01") initial_world).
  left. reflexivity.
Defined.



(** C6. No failure leaves the fetcher as an error.  However [fetch] settles
    (rejected, a status that is not a success, a body that is not JSON or has
    no observations), [fetchFredSeries] returns a sequence; and on a host
    with a plausible clock each of the four pipeline functions returns
    one. *)
Theorem never_rejects h :
  (forall seriesId startDate endDate w,
      exists obs w',
        fetchFredSeries h seriesId startDate endDate w = (Normal obs, w'))
  /\ (plausible_clock h ->
      forall seriesId P w,
        In (seriesId, P) pipelines ->
        exists points w', P h w = (Normal points, w')).
Proof.
  split.
  - intros seriesId startDate endDate w.
    destruct (fetchFredSeries_returns h seriesId startDate endDate w)
      as (obs & w' & E & _).
    now exists obs, w'.
  - intros Hclock seriesId P w HP.
    rewrite (pipelines_shape _ _ HP).
    destruct (pipeline_returns h seriesId w Hclock) as (obs & w' & E & _).
    now exists (map (normalize h) obs), w'.
Qed.

Lemma never_rejects_witness :
  plausible_clock host_malformed
  /\ exists points w',
       fetch10YearTreasuryData host_malformed initial_world
       = (Normal points, w').
Proof.
  split.
  - apply host_with_plausible_clock.
  - apply (proj2 (never_rejects host_malformed)
             (host_with_plausible_clock _ _ _) "GS10").
    simpl. auto.
Defined.

(** C7, as the code has it.  A body that is not JSON makes
    [await response.json()] reject inside the [try] block of
    [fetchFredSeries]: the error is caught there, put on the console, and the
    call returns the empty sequence.  It does not leave the fetch. *)
Theorem parse_error_is_absorbed
    h seriesId startDate endDate w out w' url r e :
  fetchFredSeries h seriesId startDate endDate w = (out, w') ->
  requests w' = (requests w ++ [url])%list ->
  fetch_result h url = FetchResolves r ->
  ok r = true ->
  body r = JsonRejects e ->
  out = Normal []
  /\ console w' = (console w ++ [error "Error fetching FRED data:" e])%list.
Proof.
  intros Hrun Hreq Hfetch Hok Hbody.
  pose proof (fetchFredSeries_request _ _ _ _ _ _ _ _ Hrun Hreq) as E.
  unfold settled, attempt in E. rewrite Hfetch, Hok, Hbody in E.
  inversion E. split; reflexivity.
Qed.

Lemma parse_error_is_absorbed_witness :
  fst (fetchFredSeries host_malformed "UNRATE" None None initial_world)
  = Normal []
  /\ console (snd (fetchFredSeries host_malformed "UNRATE" None None
                     initial_world))
     = [error "Error fetching FRED data:" (SyntaxError "Unexpected token <")].
Proof.
  apply (parse_error_is_absorbed host_malformed "UNRATE" None None
           initial_world _ _
           (request_url host_malformed "UNRATE" None None)
           (mkResponse 200 (JsonRejects (SyntaxError "Unexpected token <")))).
  - apply surjective_pairing.
  - vm_compute. reflexivity.
  - reflexivity.
  - reflexivity.
  - reflexivity.
Defined.

(** C7, as the claim has it, fails: on a host whose upstream answers 200
    with a body that is not JSON, the call does not end in an error. *)
Lemma parse_error_does_not_propagate :
  body (mkResponse (A := FredSeriesResponse) 200
          (JsonRejects (SyntaxError "Unexpected token <")))
  = JsonRejects (SyntaxError "Unexpected token <")
  /\ fetch_result host_malformed
       (request_url host_malformed "UNRATE" None None)
     = FetchResolves
         (mkResponse 200 (JsonRejects (SyntaxError "Unexpected token <")))
  /\ ~ (exists e w',
          fetchFredSeries host_malformed "UNRATE" None None initial_world
          = (Throw e, w')).
Proof.
  split; [reflexivity|]. split; [reflexivity|].
  intros (e & w' & H). vm_compute in H. discriminate H.
Qed.

(* ===================================================================== *)
(** * The claims on filtering and normalizing *)
(* ===================================================================== *)

(** C1. Whatever the response, the observations [fetchFredSeries] returns
    hold none whose value is the sentinel ["."].  On a host with a plausible
    clock each of the four pipelines returns the Normalizer mapped, one point
    per observation and in order, over exactly what its call of the fetcher
    returned: observations none of which is a sentinel, namely none at all or
    the kept observations of the successful response to its request. *)
Theorem sentinel_never_kept h :
  (forall seriesId startDate endDate w,
      exists obs w',
        fetchFredSeries h seriesId startDate endDate w = (Normal obs, w')
        /\ Forall (fun o => value o <> ".") obs)
  /\ (plausible_clock h ->
      forall seriesId P w,
        In (seriesId, P) pipelines ->
        exists obs w',
          fetchFredSeries h seriesId
            (Some (ISO_date (clock h (S (clock_reads w)) - five_years_ms)))
            (Some (ISO_date (clock h (clock_reads w))))
            (ticked 2 w)
          = (Normal obs, w')
          /\ P h w = (Normal (map (normalize h) obs), w')
          /\ Forall (fun o => value o <> ".") obs
          /\ (obs = []
              \/ exists r all,
                   fetch_result h (pipeline_url h seriesId w) = FetchResolves r
                   /\ ok r = true
                   /\ body r = JsonValue (mkSeriesResponse (Some all))
                   /\ obs = kept all)).
Proof.
  split.
  - intros. apply fetchFredSeries_returns.
  - intros Hclock seriesId P w HP.
    rewrite (pipelines_shape _ _ HP).
    assert (Hr : Z.abs (clock h (S (clock_reads w)) - five_years_ms)
                 <= maxTime).
    { specialize (Hclock (S (clock_reads w))).
      unfold five_years_ms, maxTime in *. lia. }
    rewrite (pipeline_run _ _ _ Hr).
    destruct (fetchFredSeries_result h seriesId
                (Some (ISO_date (clock h (S (clock_reads w)) - five_years_ms)))
                (Some (ISO_date (clock h (clock_reads w)))) (ticked 2 w))
      as (obs & w' & E & Hobs & Hcases).
    exists obs, w'. rewrite E. repeat split; assumption.
Qed.

Lemma sentinel_never_kept_witness :
  plausible_clock host_utc
  /\ (exists obs w',
        fetchFredSeries host_utc "CPALTT01USM657N"
          (Some "2021-11-04") (Some "2026-11-03") (ticked 2 initial_world)
        = (Normal obs, w')
        /\ fetchCPIData host_utc initial_world
           = (Normal (map (normalize host_utc) obs), w')
        /\ Forall (fun o => value o <> ".") obs
        /\ (obs = []
            \/ exists r all,
                 fetch_result host_utc
                   (pipeline_url host_utc "CPALTT01USM657N" initial_world)
                 = FetchResolves r
                 /\ ok r = true
                 /\ body r = JsonValue (mkSeriesResponse (Some all))
                 /\ obs = kept all))
  /\ exists obs w',
       fetchFredSeries host_utc "TB3MS"
         (Some "2021-11-04") (Some "2026-11-03") (ticked 2 initial_world)
       = (Normal obs, w')
       /\ fetch3MonthTreasuryData host_utc initial_world
          = (Normal (map (normalize host_utc) obs), w')
       /\ Forall (fun o => value o <> ".") obs
       /\ (obs = []
           \/ exists r all,
                fetch_result host_utc
                  (pipeline_url host_utc "TB3MS" initial_world)
                = FetchResolves r
                /\ ok r = true
                /\ body r = JsonValue (mkSeriesResponse (Some all))
                /\ obs = kept all).
Proof.
  split; [apply host_with_plausible_clock|]. split.
  - apply (proj2 (sentinel_never_kept host_utc)
             (host_with_plausible_clock _ _ _) "CPALTT01USM657N"
             fetchCPIData initial_world).
    simpl. auto.
  - apply (proj2 (sentinel_never_kept host_utc)
             (host_with_plausible_clock _ _ _) "TB3MS"
             fetch3MonthTreasuryData initial_world).
    simpl. auto.
Defined.

(** C2. When the upstream answers the request of a pipeline successfully
    with N observations, M of them sentinels, the pipeline returns exactly
    N - M points: the Normalizer mapped, in order, over the observations that
    are not sentinels, which are a subsequence of the response.  The request
    is made on a host with a credential and a plausible clock, and the
    response is the one to the URL of the pipeline. *)
Theorem output_length_and_order h seriesId P w r all :
  In (seriesId, P) pipelines ->
  configured h = true ->
  plausible_clock h ->
  fetch_result h (pipeline_url h seriesId w) = FetchResolves r ->
  ok r = true ->
  body r = JsonValue (mkSeriesResponse (Some all)) ->
  exists points w',
    P h w = (Normal points, w')
    /\ List.length points
       = (List.length all - List.length (filter sentinel all))%nat
    /\ points = map (normalize h) (kept all)
    /\ subsequence (kept all) all.
Proof.
  intros HP Hc Hclock Hfetch Hok Hbody.
  rewrite (pipelines_shape _ _ HP).
  rewrite (pipeline_answered h seriesId w Hc Hclock).
  unfold attempt. rewrite Hfetch, Hok, Hbody. cbn [observations].
  eexists _, _. split; [reflexivity|].
  split; [now rewrite length_map, kept_length|].
  split; [reflexivity | apply kept_subsequence].
Qed.

Lemma output_length_and_order_witness :
  (exists points w',
      fetchCPIData host_utc initial_world = (Normal points, w')
      /\ List.length points = (3 - 1)%nat
      /\ points = map (normalize host_utc) (kept observations_2020)
      /\ subsequence (kept observations_2020) observations_2020)
  /\ (exists points w',
        fetchUnemploymentData host_utc initial_world = (Normal points, w')
        /\ List.length points = (3 - 1)%nat
        /\ points = map (normalize host_utc) (kept observations_2020)
        /\ subsequence (kept observations_2020) observations_2020)
  /\ (exists points w',
        fetch10YearTreasuryData host_utc initial_world = (Normal points, w')
        /\ List.length points = (3 - 1)%nat
        /\ points = map (normalize host_utc) (kept observations_2020)
        /\ subsequence (kept observations_2020) observations_2020)
  /\ exists points w',
       fetch3MonthTreasuryData host_utc initial_world = (Normal points, w')
       /\ List.length points = (3 - 1)%nat
       /\ points = map (normalize host_utc) (kept observations_2020)
       /\ subsequence (kept observations_2020) observations_2020.
Proof.
  split; [|split; [|split]].
  - apply (output_length_and_order host_utc "CPALTT01USM657N" fetchCPIData
             initial_world
             (mkResponse 200
                (JsonValue (mkSeriesResponse (Some observations_2020))))
             observations_2020);
      first [ reflexivity | apply host_with_plausible_clock | simpl; auto ].
  - apply (output_length_and_order host_utc "UNRATE" fetchUnemploymentData
             initial_world
             (mkResponse 200
                (JsonValue (mkSeriesResponse (Some observations_2020))))
             observations_2020);
      first [ reflexivity | apply host_with_plausible_clock | simpl; auto ].
  - apply (output_length_and_order host_utc "GS10" fetch10YearTreasuryData
             initial_world
             (mkResponse 200
                (JsonValue (mkSeriesResponse (Some observations_2020))))
             observations_2020);
      first [ reflexivity | apply host_with_plausible_clock | simpl; auto ].
  - apply (output_length_and_order host_utc "TB3MS" fetch3MonthTreasuryData
             initial_world
             (mkResponse 200
                (JsonValue (mkSeriesResponse (Some observations_2020))))
             observations_2020);
      first [ reflexivity | apply host_with_plausible_clock | simpl; auto ].
Defined.

(** C10. An observation of a successful response whose value is not the
    sentinel and does not parse as a number ([parseFloat] gives [NaN]) is
    not dropped and nothing is thrown: the pipeline returns the points of the
    observations before it, then one point for it, with value [NaN], then the
    points of the observations after it.  The request is made on a host with
    a credential and a plausible clock, and the response is the one to the
    URL of the pipeline. *)
Theorem non_numeric_value_is_kept h seriesId P w r before obs after :
  In (seriesId, P) pipelines ->
  configured h = true ->
  plausible_clock h ->
  fetch_result h (pipeline_url h seriesId w) = FetchResolves r ->
  ok r = true ->
  body r = JsonValue (mkSeriesResponse (Some (before ++ obs :: after)%list)) ->
  value obs <> "." ->
  parseFloat (value obs) = NaN ->
  exists w',
    P h w
    = (Normal (map (normalize h) (kept before)
               ++ normalize h obs :: map (normalize h) (kept after))%list,
       w')
    /\ Point.value (normalize h obs) = NaN.
Proof.
  intros HP Hc Hclock Hfetch Hok Hbody Hvalue Hnan.
  rewrite (pipelines_shape _ _ HP).
  rewrite (pipeline_answered h seriesId w Hc Hclock).
  unfold attempt. rewrite Hfetch, Hok, Hbody. cbn [observations].
  assert (Hkept : kept (obs :: after) = obs :: kept after).
  { unfold kept. simpl. unfold sentinel at 1.
    apply String.eqb_neq in Hvalue. now rewrite Hvalue. }
  rewrite kept_app, map_app, Hkept.
  eexists. split; [reflexivity | exact Hnan].
Qed.

Lemma non_numeric_value_is_kept_witness :
  fst (fetchCPIData host_not_available initial_world)
  = Normal [Point.mk "Jan 2020" (Decimal false 36 (-1));
            Point.mk "Feb 2020" NaN;
            Point.mk "Mar 2020" (Decimal false 44 (-1))]
  /\ fst (fetchUnemploymentData host_not_available initial_world)
     = Normal [Point.mk "Jan 2020" (Decimal false 36 (-1));
               Point.mk "Feb 2020" NaN;
               Point.mk "Mar 2020" (Decimal false 44 (-1))]
  /\ fst (fetch10YearTreasuryData host_not_available initial_world)
     = Normal [Point.mk "Jan 2020" (Decimal false 36 (-1));
               Point.mk "Feb 2020" NaN;
               Point.mk "Mar 2020" (Decimal false 44 (-1))]
  /\ fst (fetch3MonthTreasuryData host_not_available initial_world)
     = Normal [Point.mk "Jan 2020" (Decimal false 36 (-1));
               Point.mk "Feb 2020" NaN;
               Point.mk "Mar 2020" (Decimal false 44 (-1))].
Proof.
  assert (H : forall seriesId P,
             In (seriesId, P) pipelines ->
             fst (P host_not_available initial_world)
             = Normal [Point.mk "Jan 2020" (Decimal false 36 (-1));
                       Point.mk "Feb 2020" NaN;
                       Point.mk "Mar 2020" (Decimal false 44 (-1))]).
  { intros seriesId P HP.
    destruct (non_numeric_value_is_kept host_not_available seriesId P
                initial_world
                (mkResponse 200
                   (JsonValue
                      (mkSeriesResponse (Some observations_not_available))))
                [mkObservation "2020-01-01" "3.6"]
                (mkObservation "2020-02-01" "n/a")
                [mkObservation "2020-03-01" "4.4"]
                HP eq_refl (host_with_plausible_clock _ _ _)
                eq_refl eq_refl eq_refl
                ltac:(discriminate) eq_refl) as (w' & E & _).
    rewrite E. vm_compute. reflexivity. }
  split; [|split; [|split]].
  - apply (H "CPALTT01USM657N"). simpl. auto.
  - apply (H "UNRATE"). simpl. auto.
  - apply (H "GS10"). simpl. auto.
  - apply (H "TB3MS"). simpl. auto.
Defined.

(** Where local time is UTC, the example of the unemployment series comes
    out with the months of the observations. *)
Lemma unemployment_2020_in_utc :
  fst (fetchUnemploymentData host_utc initial_world)
  = Normal [Point.mk "Jan 2020" (Decimal false 36 (-1));
            Point.mk "Mar 2020" (Decimal false 44 (-1))].
Proof. vm_compute. reflexivity. Qed.

(** C3, on a host in New York.  The observation dates are read as midnight
    UTC and the labels are made in local time, five hours behind: the
    observations for January and March 2020 come out labelled with the
    months before them, not as ["Jan 2020"] and ["Mar 2020"]. *)
Theorem unemployment_2020_in_new_york :
  LocalTZA host_new_york 1577836800000 = -5 * 3600000
  /\ fetch_result host_new_york
       (request_url host_new_york "UNRATE"
          (Some "2021-11-04") (Some "2026-11-03"))
     = FetchResolves
         (mkResponse 200
            (JsonValue (mkSeriesResponse (Some observations_2020))))
  /\ fst (fetchUnemploymentData host_new_york initial_world)
     = Normal [Point.mk "Dec 2019" (Decimal false 36 (-1));
               Point.mk "Feb 2020" (Decimal false 44 (-1))]
  /\ fst (fetchUnemploymentData host_new_york initial_world)
     <> Normal [Point.mk "Jan 2020" (Decimal false 36 (-1));
                Point.mk "Mar 2020" (Decimal false 44 (-1))].
Proof.
  split; [reflexivity|]. split; [reflexivity|].
  assert (E : fst (fetchUnemploymentData host_new_york initial_world)
              = Normal [Point.mk "Dec 2019" (Decimal false 36 (-1));
                        Point.mk "Feb 2020" (Decimal false 44 (-1))])
    by (vm_compute; reflexivity).
  split; [exact E|]. rewrite E. discriminate.
Qed.

(* ===================================================================== *)
(** * The claim on the window of dates *)
(* ===================================================================== *)

(** C9. Each of the four pipeline functions is the one pipeline at its
    series identifier.  On a host with a plausible clock it reads the clock
    twice, and calls the fetcher with the UTC date of the first reading as
    the end date and, as the start date, the UTC date of the time five years
    (of 365 days) before the second reading, which lies 1825 days before
    the day of that reading. *)
Theorem pipelines_trailing_window h seriesId P w :
  In (seriesId, P) pipelines ->
  plausible_clock h ->
  let today := clock h (clock_reads w) in
  let now := clock h (S (clock_reads w)) in
  P = (fun h => pipeline h seriesId)
  /\ P h w
     = match fetchFredSeries h seriesId
               (Some (ISO_date (now - five_years_ms)))
               (Some (ISO_date today))
               (ticked 2 w) with
       | (Normal data, w') => (Normal (map (normalize h) data), w')
       | (Throw e, w') => (Throw e, w')
       end
  /\ Day (now - five_years_ms) = Day now - 5 * 365.
Proof.
  intros HP Hclock today now.
  split; [now apply pipelines_shape|].
  split; [|apply Day_five_years_before].
  rewrite (pipelines_shape _ _ HP).
  apply pipeline_run.
  specialize (Hclock (S (clock_reads w))).
  unfold five_years_ms, maxTime in *. lia.
Qed.

Lemma pipelines_trailing_window_witness :
  ISO_date a_day_in_2026 = "2026-11-03"
  /\ ISO_date (a_day_in_2026 - five_years_ms) = "2021-11-04"
  /\ fetch3MonthTreasuryData host_utc initial_world
     = match fetchFredSeries host_utc "TB3MS"
               (Some "2021-11-04") (Some "2026-11-03")
               (ticked 2 initial_world) with
       | (Normal data, w') => (Normal (map (normalize host_utc) data), w')
       | (Throw e, w') => (Throw e, w')
       end.
Proof.
  split; [reflexivity|]. split; [reflexivity|].
  apply (pipelines_trailing_window host_utc "TB3MS" fetch3MonthTreasuryData
           initial_world).
  - simpl. auto.
  - apply host_with_plausible_clock.
Defined.

(* ===================================================================== *)
(** * The claim on the page controller *)
(* ===================================================================== *)

(** When the four promises fulfil, the state is the initial one, loading,
    before the last of them does, and from then on holds the four results
    with the flag cleared. *)
Lemma loadData_fulfilled cpi unemployment treasury10Y treasury3M t1 t2 t3 t4 t :
  0 <= t1 -> 0 <= t2 -> 0 <= t3 -> 0 <= t4 ->
  Page.state_at
    (Page.loadData (Page.Settled t1 (Normal cpi))
                   (Page.Settled t2 (Normal unemployment))
                   (Page.Settled t3 (Normal treasury10Y))
                   (Page.Settled t4 (Normal treasury3M))) t
  = if t <? slowest t1 t2 t3 t4
    then Page.initial_state
    else Page.mkHome cpi unemployment treasury10Y treasury3M false.
Proof.
  intros H1 H2 H3 H4.
  unfold Page.loadData, Page.Promise_all. simpl.
  replace (Z.max t1 (Z.max t2 (Z.max t3 (Z.max t4 0))))
    with (slowest t1 t2 t3 t4) by (unfold slowest; lia).
  assert (Hs : 0 <= slowest t1 t2 t3 t4) by (unfold slowest; lia).
  unfold Page.state_at. simpl.
  destruct (Z.ltb_spec t (slowest t1 t2 t3 t4)) as [Hlt|Hge].
  - destruct (Z.leb_spec (slowest t1 t2 t3 t4) t); [lia|].
    destruct (0 <=? t); reflexivity.
  - destruct (Z.leb_spec (slowest t1 t2 t3 t4) t); [|lia].
    destruct (Z.leb_spec 0 t); [reflexivity | lia].
Qed.

(** C8. When the four pipelines resolve at distinct times after the mount,
    the loading flag stays set, and the four slots stay empty, at every time
    before the slowest of them has resolved; from that time on the four
    results are stored and the flag is cleared. *)
Theorem loading_clears_after_slowest
    cpi unemployment treasury10Y treasury3M t1 t2 t3 t4 :
  0 < t1 -> 0 < t2 -> 0 < t3 -> 0 < t4 ->
  NoDup [t1; t2; t3; t4] ->
  let timeline :=
    Page.loadData (Page.Settled t1 (Normal cpi))
                  (Page.Settled t2 (Normal unemployment))
                  (Page.Settled t3 (Normal treasury10Y))
                  (Page.Settled t4 (Normal treasury3M)) in
  (forall t, t < slowest t1 t2 t3 t4 ->
             Page.loading (Page.state_at timeline t) = true
             /\ Page.state_at timeline t = Page.initial_state)
  /\ (forall t, slowest t1 t2 t3 t4 <= t ->
                Page.state_at timeline t
                = Page.mkHome cpi unemployment treasury10Y treasury3M false).
Proof.
  intros H1 H2 H3 H4 _ timeline. subst timeline.
  split; intros t Ht; rewrite loadData_fulfilled by lia.
  - destruct (Z.ltb_spec t (slowest t1 t2 t3 t4)); [now split | lia].
  - destruct (Z.ltb_spec t (slowest t1 t2 t3 t4)); [lia | reflexivity].
Qed.

Lemma loading_clears_after_slowest_witness :
  Page.loading
    (Page.state_at
       (Page.loadData (Page.Settled 40 (Normal []))
                      (Page.Settled 10 (Normal []))
                      (Page.Settled 30 (Normal []))
                      (Page.Settled 20 (Normal []))) 39) = true.
Proof.
  apply (proj1 (loading_clears_after_slowest [] [] [] [] 40 10 30 20
                  ltac:(lia) ltac:(lia) ltac:(lia) ltac:(lia)
                  ltac:(repeat constructor; simpl; intuition lia))).
  unfold slowest. lia.
Defined.


Lemma ascii_code_range c : 0 <= ascii_code c < 256.
Proof.
  unfold ascii_code. pose proof (nat_ascii_bounded c). lia.
Qed.

Lemma ascii_code_inj c k :
  ascii_code c = k -> c = ascii_of_nat (Z.to_nat k).
Proof.
  intros <-. unfold ascii_code.
  now rewrite Nat2Z.id, ascii_nat_embedding.
Qed.

Lemma hex_char_facts d :
  0 <= d < 16 ->
  urlencoded_safe (hex_char d) = true /\ hex_value (hex_char d) = d.
Proof.
  intros Hd.
  assert (H : d = 0 \/ d = 1 \/ d = 2 \/ d = 3 \/ d = 4 \/ d = 5 \/ d = 6
              \/ d = 7 \/ d = 8 \/ d = 9 \/ d = 10 \/ d = 11 \/ d = 12
              \/ d = 13 \/ d = 14 \/ d = 15) by lia.
  repeat (destruct H as [H|H]; [subst d; split; reflexivity|]).
  subst d; split; reflexivity.
Qed.

Lemma urlencoded_safe_not_special c :
  urlencoded_safe c = true ->
  Ascii.eqb c "+" = false /\ Ascii.eqb c "%" = false
  /\ Ascii.eqb c "&" = false /\ Ascii.eqb c "=" = false.
Proof.
  intros Hs.
  assert (H : forall x, ascii_code c <> ascii_code x -> Ascii.eqb c x = false).
  { intros x Hx. apply Ascii.eqb_neq. now intros ->. }
  unfold urlencoded_safe, is_alnum, is_digit in Hs.
  repeat split; apply H; change (ascii_code "+") with 43;
    change (ascii_code "%") with 37; change (ascii_code "&") with 38;
    change (ascii_code "=") with 61; intros E; rewrite E in Hs; discriminate Hs.
Qed.

(** Decoding undoes the encoding. *)
Lemma urldecode_urlencode s : urldecode (urlencode s) = s.
Proof.
  induction s as [|c s IH]; [reflexivity|].
  cbn [urlencode]. cbv zeta.
  destruct (urlencoded_safe c) eqn:Hsafe.
  - destruct (urlencoded_safe_not_special c Hsafe) as (Hp & Hq & _).
    cbn [urldecode]. now rewrite Hp, Hq, IH.
  - destruct (Z.eqb_spec (ascii_code c) 32) as [E|E].
    + cbn [urldecode]. change (Ascii.eqb "+" "+") with true. cbv iota.
      rewrite IH. f_equal. symmetry. now apply (ascii_code_inj c 32).
    + pose proof (ascii_code_range c) as R.
      destruct (hex_char_facts (ascii_code c / 16)) as [_ H1].
      { split; [apply Z.div_pos; lia | apply Z.div_lt_upper_bound; lia]. }
      destruct (hex_char_facts (ascii_code c mod 16)) as [_ H2].
      { apply Z.mod_pos_bound; lia. }
      cbn [urldecode]. change (Ascii.eqb "%" "+") with false.
      change (Ascii.eqb "%" "%") with true. cbv iota.
      rewrite H1, H2, IH. f_equal. symmetry. apply ascii_code_inj.
      pose proof (Z.div_mod (ascii_code c) 16). lia.
Qed.

Lemma urlencode_injective a b : urlencode a = urlencode b -> a = b.
Proof.
  intros H. rewrite <- (urldecode_urlencode a), <- (urldecode_urlencode b).
  now rewrite H.
Qed.


Lemma string_app_inv_head (a b c : string) : a ++ b = a ++ c -> b = c.
Proof.
  induction a as [|x a IH]; simpl; intros H; [exact H|].
  injection H as H. now apply IH.
Qed.

Lemma string_length_app (a b : string) :
  String.length (a ++ b) = (String.length a + String.length b)%nat.
Proof. induction a as [|x a IH]; simpl; [reflexivity | now rewrite IH]. Qed.

Lemma string_app_inv_tail (a b c : string) : a ++ c = b ++ c -> a = b.
Proof.
  revert b. induction a as [|x a IH]; intros [|y b] H; simpl in H.
  - reflexivity.
  - apply (f_equal String.length) in H. simpl in H.
    rewrite string_length_app in H. lia.
  - apply (f_equal String.length) in H. simpl in H.
    rewrite string_length_app in H. lia.
  - injection H as -> H. f_equal. now apply IH.
Qed.

Lemma count_char_app c (a b : string) :
  count_char c (a ++ b) = (count_char c a + count_char c b)%nat.
Proof.
  induction a as [|x a IH]; simpl; [reflexivity|]. rewrite IH. lia.
Qed.

(** No name or value brings a separator of its own into the query string. *)
Lemma count_char_urlencode s :
  count_char "&" (urlencode s) = 0%nat /\ count_char "=" (urlencode s) = 0%nat.
Proof.
  induction s as [|c s [IH1 IH2]]; [split; reflexivity|].
  cbn [urlencode]. cbv zeta.
  destruct (urlencoded_safe c) eqn:Hsafe.
  - destruct (urlencoded_safe_not_special c Hsafe) as (_ & _ & Ha & He).
    cbn [count_char]. rewrite Ha, He, IH1, IH2. split; reflexivity.
  - destruct (ascii_code c =? 32).
    + cbn [count_char]. rewrite IH1, IH2. split; reflexivity.
    + pose proof (ascii_code_range c) as R.
      destruct (hex_char_facts (ascii_code c / 16)) as [S1 _].
      { split; [apply Z.div_pos; lia | apply Z.div_lt_upper_bound; lia]. }
      destruct (hex_char_facts (ascii_code c mod 16)) as [S2 _].
      { apply Z.mod_pos_bound; lia. }
      destruct (urlencoded_safe_not_special _ S1) as (_ & _ & Ha1 & He1).
      destruct (urlencoded_safe_not_special _ S2) as (_ & _ & Ha2 & He2).
      cbn [count_char]. rewrite Ha1, He1, Ha2, He2, IH1, IH2.
      split; reflexivity.
Qed.

(** The URL the fetcher asks for, written out. *)
Lemma request_url_format h seriesId startDate endDate :
  request_url h seriesId startDate endDate
  = "https://api.stlouisfed.org/fred/series/observations?series_id="
    ++ urlencode seriesId
    ++ "&api_key="
    ++ urlencode (match API_KEY h with Some key => key | None => "" end)
    ++ "&file_type=json"
    ++ date_param "observation_start" startDate
    ++ date_param "observation_end" endDate.
Proof.
  unfold request_url, date_param, FRED_API_BASE.
  generalize (match API_KEY h with Some key => key | None => "" end) as key.
  intros key.
  destruct startDate as [s|], endDate as [e|];
    try destruct (is_empty s); try destruct (is_empty e);
    cbn [app params_toString String.append];
    change (urlencode "series_id") with "series_id";
    change (urlencode "api_key") with "api_key";
    change (urlencode "file_type") with "file_type";
    change (urlencode "json") with "json";
    change (urlencode "observation_start") with "observation_start";
    change (urlencode "observation_end") with "observation_end";
    repeat rewrite string_app_assoc; cbn [String.append];
    repeat rewrite string_app_nil_r; reflexivity.
Qed.


(* ===================================================================== *)
(** * More on the series fetcher *)
(* ===================================================================== *)

(** A call that made a request had a credential, and asked for the URL of
    its arguments. *)
Lemma fetchFredSeries_requested_url h seriesId startDate endDate w url :
  requests (snd (fetchFredSeries h seriesId startDate endDate w))
  = (requests w ++ [url])%list ->
  configured h = true /\ url = request_url h seriesId startDate endDate.
Proof.
  intros Hreq. destruct (configured h) eqn:Hc.
  - split; [reflexivity|].
    rewrite (fetchFredSeries_configured _ _ _ _ _ Hc) in Hreq.
    unfold settled in Hreq.
    destruct (attempt h _); simpl in Hreq;
      now apply app_inj_tail in Hreq as [_ Hu].
  - rewrite (fetchFredSeries_unconfigured _ _ _ _ _ Hc) in Hreq.
    simpl in Hreq. now apply app_one_neq in Hreq.
Qed.

Lemma settled_requests h url w :
  requests (snd (settled h url w)) = (requests w ++ [url])%list.
Proof. unfold settled. destruct (attempt h url); reflexivity. Qed.

(** A key that is neither empty nor the placeholder is accepted. *)
Lemma usable_key_configured h key :
  API_KEY h = Some key ->
  key <> "" ->
  key <> "your_fred_api_key_here" ->
  configured h = true.
Proof.
  intros Hkey Hne Hph.
  unfold configured, placeholder. rewrite Hkey. unfold falsy, strict_eq.
  apply String.eqb_neq in Hph. rewrite Hph.
  destruct key; [contradiction | reflexivity].
Qed.

(** X1. With a credential, a call of [fetchFredSeries] makes exactly one
    request, whatever comes back: for the observations endpoint, with the
    series, the key and the format as parameters and then each date that is
    neither undefined nor empty, every name and value form-encoded. *)
Theorem fetchFredSeries_request_format h seriesId startDate endDate w key :
  API_KEY h = Some key ->
  key <> "" ->
  key <> "your_fred_api_key_here" ->
  requests (snd (fetchFredSeries h seriesId startDate endDate w))
  = (requests w
     ++ [("https://api.stlouisfed.org/fred/series/observations?series_id="
          ++ urlencode seriesId
          ++ "&api_key=" ++ urlencode key
          ++ "&file_type=json"
          ++ date_param "observation_start" startDate
          ++ date_param "observation_end" endDate)%string])%list.
Proof.
  intros Hkey Hne Hph.
  pose proof (usable_key_configured h key Hkey Hne Hph) as Hc.
  rewrite (fetchFredSeries_configured _ _ _ _ _ Hc), settled_requests.
  now rewrite request_url_format, Hkey.
Qed.

Lemma fetchFredSeries_request_format_witness :
  requests (snd (fetchFredSeries host_500 "GS 10" (Some "") (Some "2026-11-03")
                   initial_world))
  = ["https://api.stlouisfed.org/fred/series/observations?series_id=GS+10&api_key=abcdef0123456789&file_type=json&observation_end=2026-11-03"].
Proof.
  apply (fetchFredSeries_request_format host_500 "GS 10" (Some "")
           (Some "2026-11-03") initial_world "abcdef0123456789").
  - reflexivity.
  - discriminate.
  - discriminate.
Defined.



Lemma count_char_date_param name d :
  count_char "&" name = 0%nat -> count_char "=" name = 0%nat ->
  count_char "&" (date_param name d) = (if falsy d then 0 else 1)%nat
  /\ count_char "=" (date_param name d) = (if falsy d then 0 else 1)%nat.
Proof.
  intros Ha He. unfold date_param, falsy.
  destruct d as [s|]; [|split; reflexivity].
  destruct (is_empty s); [split; reflexivity|].
  destruct (count_char_urlencode s) as [Ea Ee].
  rewrite !count_char_app, Ha, He, Ea, Ee. split; reflexivity.
Qed.

(** X2. Whatever the series identifier, the key and the dates contain, the
    URL of the request has the separators of its own parameters and no
    others: two [&] and three [=] for the series, the key and the format,
    and one of each for every date given. *)
Theorem request_separators h seriesId startDate endDate w url :
  requests (snd (fetchFredSeries h seriesId startDate endDate w))
  = (requests w ++ [url])%list ->
  count_char "&" url = (2 + dates_given startDate endDate)%nat
  /\ count_char "=" url = (3 + dates_given startDate endDate)%nat.
Proof.
  intros Hreq.
  apply fetchFredSeries_requested_url in Hreq as [_ ->].
  rewrite request_url_format.
  destruct (count_char_urlencode seriesId) as [A1 E1].
  destruct (count_char_urlencode
              (match API_KEY h with Some key => key | None => "" end))
    as [A2 E2].
  destruct (count_char_date_param "observation_start" startDate
              eq_refl eq_refl) as [A3 E3].
  destruct (count_char_date_param "observation_end" endDate
              eq_refl eq_refl) as [A4 E4].
  unfold dates_given.
  rewrite !count_char_app, A1, A2, A3, A4, E1, E2, E3, E4.
  split; reflexivity.
Qed.

Lemma request_separators_witness :
  count_char "&"
    "https://api.stlouisfed.org/fred/series/observations?series_id=A%26b%3Dc&api_key=abcdef0123456789&file_type=json&observation_start=2020-01-01"
  = 3%nat.
Proof.
  apply (request_separators host_utc "A&b=c" (Some "2020-01-01") None
           initial_world).
  reflexivity.
Defined.

Lemma split_at_separator (a b r1 r2 : string) :
  count_char "&" a = 0%nat -> count_char "&" b = 0%nat ->
  a ++ String "&" r1 = b ++ String "&" r2 -> a = b.
Proof.
  revert b. induction a as [|x a IH]; intros [|y b] Ha Hb E; simpl in *.
  - reflexivity.
  - injection E as <- _. discriminate Hb.
  - injection E as -> _. discriminate Ha.
  - injection E as -> E. f_equal.
    destruct (Ascii.eqb y "&"); [discriminate|]. now apply (IH b).
Qed.

(** X3. Calls for different series never ask for the same URL, whatever the
    hosts and the dates, when the identifiers are well-formed Unicode
    strings.  (An identifier with a lone surrogate is not of the model: the
    platform sends U+FFFD for it.) *)
Theorem distinct_series_distinct_requests
    h1 h2 seriesId1 seriesId2 start1 end1 start2 end2 w1 w2 url1 url2 :
  well_formed seriesId1 = true ->
  well_formed seriesId2 = true ->
  requests (snd (fetchFredSeries h1 seriesId1 start1 end1 w1))
  = (requests w1 ++ [url1])%list ->
  requests (snd (fetchFredSeries h2 seriesId2 start2 end2 w2))
  = (requests w2 ++ [url2])%list ->
  seriesId1 <> seriesId2 ->
  url1 <> url2.
Proof.
  intros _ _ H1 H2 Hne E.
  apply fetchFredSeries_requested_url in H1 as [_ ->].
  apply fetchFredSeries_requested_url in H2 as [_ ->].
  rewrite !request_url_format in E.
  apply string_app_inv_head in E.
  apply split_at_separator in E; try apply count_char_urlencode.
  now apply urlencode_injective in E.
Qed.

Lemma distinct_series_distinct_requests_witness :
  well_formed "GS10" = true
  /\ well_formed "Zürich" = true
  /\ request_url host_utc "GS10" None None
     <> request_url host_500 "Zürich" (Some "2020-01-01") None.
Proof.
  split; [reflexivity|]. split; [reflexivity|].
  apply (distinct_series_distinct_requests host_utc host_500 "GS10" "Zürich"
           None None (Some "2020-01-01") None initial_world initial_world).
  - reflexivity.
  - reflexivity.
  - reflexivity.
  - reflexivity.
  - discriminate.
Defined.

(** X4. When [fetch] itself rejects (the network fails), the call returns the
    empty sequence, and the error [fetch] rejected with goes to
    [console.error]; nothing else is written. *)
Theorem network_failure_is_absorbed
    h seriesId startDate endDate w out w' url e :
  fetchFredSeries h seriesId startDate endDate w = (out, w') ->
  requests w' = (requests w ++ [url])%list ->
  fetch_result h url = FetchRejects e ->
  out = Normal []
  /\ console w' = (console w ++ [error "Error fetching FRED data:" e])%list.
Proof.
  intros Hrun Hreq Hfetch.
  pose proof (fetchFredSeries_request _ _ _ _ _ _ _ _ Hrun Hreq) as E.
  unfold settled, attempt in E. rewrite Hfetch in E.
  inversion E. split; reflexivity.
Qed.

Lemma network_failure_is_absorbed_witness :
  fst (fetchFredSeries host_offline "UNRATE" None None initial_world)
  = Normal []
  /\ console (snd (fetchFredSeries host_offline "UNRATE" None None
                     initial_world))
     = [error "Error fetching FRED data:" (TypeError "Failed to fetch")].
Proof.
  apply (network_failure_is_absorbed host_offline "UNRATE" None None
           initial_world
           (fst (fetchFredSeries host_offline "UNRATE" None None initial_world))
           (snd (fetchFredSeries host_offline "UNRATE" None None initial_world))
           (request_url host_offline "UNRATE" None None)).
  - apply surjective_pairing.
  - reflexivity.
  - reflexivity.
Defined.

(** X5. A successful response whose body parses but carries no
    [observations] (as the error bodies of the API) makes
    [data.observations.filter] throw a [TypeError] inside the [try] block:
    the call returns the empty sequence and puts that error, a [TypeError]
    with the message the host words it with, on the console. *)
Theorem missing_observations_is_absorbed
    h seriesId startDate endDate w out w' url r :
  fetchFredSeries h seriesId startDate endDate w = (out, w') ->
  requests w' = (requests w ++ [url])%list ->
  fetch_result h url = FetchResolves r ->
  ok r = true ->
  body r = JsonValue (mkSeriesResponse None) ->
  out = Normal []
  /\ console w'
     = (console w
        ++ [error "Error fetching FRED data:"
              (TypeError (observations_TypeError h url))])%list.
Proof.
  intros Hrun Hreq Hfetch Hok Hbody.
  pose proof (fetchFredSeries_request _ _ _ _ _ _ _ _ Hrun Hreq) as E.
  unfold settled, attempt in E. rewrite Hfetch, Hok, Hbody in E.
  inversion E. split; reflexivity.
Qed.

Lemma missing_observations_is_absorbed_witness :
  fst (fetchFredSeries host_no_observations "UNRATE" None None initial_world)
  = Normal [].
Proof.
  apply (missing_observations_is_absorbed host_no_observations "UNRATE"
           None None initial_world
           (fst (fetchFredSeries host_no_observations "UNRATE" None None
                   initial_world))
           (snd (fetchFredSeries host_no_observations "UNRATE" None None
                   initial_world))
           (request_url host_no_observations "UNRATE" None None)
           (mkResponse 200 (JsonValue (mkSeriesResponse None)))).
  - apply surjective_pairing.
  - reflexivity.
  - reflexivity.
  - reflexivity.
  - reflexivity.
Defined.

(** X6. A call that gets a successful response with observations returns the
    ones that are not sentinels and writes nothing to the console; the
    status only matters through its range: every status from 200 to 299
    counts as a success. *)
Theorem success_is_silent
    h seriesId startDate endDate w out w' url r all :
  fetchFredSeries h seriesId startDate endDate w = (out, w') ->
  requests w' = (requests w ++ [url])%list ->
  fetch_result h url = FetchResolves r ->
  (200 <= status r <= 299)%N ->
  body r = JsonValue (mkSeriesResponse (Some all)) ->
  out = Normal (kept all) /\ console w' = console w.
Proof.
  intros Hrun Hreq Hfetch Hstatus Hbody.
  assert (Hok : ok r = true).
  { unfold ok. apply andb_true_iff. split; apply N.leb_le; lia. }
  pose proof (fetchFredSeries_request _ _ _ _ _ _ _ _ Hrun Hreq) as E.
  unfold settled, attempt in E. rewrite Hfetch, Hok, Hbody in E.
  inversion E. split; reflexivity.
Qed.

Lemma success_is_silent_witness :
  fst (fetchFredSeries host_utc "UNRATE" None None initial_world)
  = Normal [mkObservation "2020-01-01" "3.6"; mkObservation "2020-03-01" "4.4"]
  /\ console (snd (fetchFredSeries host_utc "UNRATE" None None initial_world))
     = [].
Proof.
  apply (success_is_silent host_utc "UNRATE" None None initial_world
           (fst (fetchFredSeries host_utc "UNRATE" None None initial_world))
           (snd (fetchFredSeries host_utc "UNRATE" None None initial_world))
           (request_url host_utc "UNRATE" None None)
           (mkResponse 200
              (JsonValue (mkSeriesResponse (Some observations_2020))))
           observations_2020).
  - apply surjective_pairing.
  - reflexivity.
  - reflexivity.
  - split; discriminate.
  - reflexivity.
Defined.


(* ===================================================================== *)
(** * More on the dates of the pipelines *)
(* ===================================================================== *)

(** The month and the day of a time value are a month and a day of that
    month that exist, and name the day the time falls in. *)
Lemma civil_fields t :
  0 <= MonthFromTime t <= 11
  /\ 1 <= DateFromTime t <= DaysInMonth (YearFromTime t) (MonthFromTime t)
  /\ MakeDate (YearFromTime t) (MonthFromTime t) (DateFromTime t)
     = Day t * msPerDay.
Proof.
  pose proof (YearFromDay_bounds (Day t)) as B.
  fold (YearFromTime t) in B. rewrite DayFromYear_next in B.
  unfold DateFromTime, MakeDate.
  change (if DaysInYear (YearFromTime t) =? 366 then 1 else 0)
    with (leap_of (YearFromTime t)).
  change (InLeapYear t) with (leap_of (YearFromTime t)).
  change (MonthFromTime t)
    with (month_of (DayWithinYear t) (leap_of (YearFromTime t))).
  assert (W : Day t = DayFromYear (YearFromTime t) + DayWithinYear t)
    by (unfold DayWithinYear; lia).
  rewrite W in *. clear W.
  generalize dependent (DayWithinYear t). intros wd B.
  generalize dependent (YearFromTime t). intros y B.
  unfold DaysInMonth.
  change (if DaysInYear y =? 366 then 1 else 0) with (leap_of y). cbv zeta.
  destruct (leap_of_cases y) as [[L D]|[L D]]; rewrite L; rewrite D in B;
    unfold month_of; decide_tests;
    unfold DaysBeforeMonth, msPerDay; cbn [Z.eqb Pos.eqb orb]; lia.
Qed.


Lemma digit_char_facts d :
  0 <= d < 10 ->
  is_digit (digit_char d) = true
  /\ digit_value (digit_char d) = d
  /\ urlencoded_safe (digit_char d) = true.
Proof.
  intros Hd.
  assert (H : d = 0 \/ d = 1 \/ d = 2 \/ d = 3 \/ d = 4 \/ d = 5 \/ d = 6
              \/ d = 7 \/ d = 8 \/ d = 9) by lia.
  repeat (destruct H as [H|H]; [subst d; repeat split; reflexivity|]).
  subst d; repeat split; reflexivity.
Qed.

Lemma DaysInMonth_le_31 y m : DaysInMonth y m <= 31.
Proof.
  unfold DaysInMonth.
  destruct (DaysInYear y =? 366), (m =? 1),
    ((m =? 3) || (m =? 5) || (m =? 8) || (m =? 10)); lia.
Qed.

Lemma mod_10_digit n : 0 <= n mod 10 < 10.
Proof. apply Z.mod_pos_bound. lia. Qed.

(** The date of a time value of the years 0 to 9999, as the pipelines write
    it, reads back as the year, the month and the day it was written
    from. *)
Lemma date_only_fields_ISO_date t :
  0 <= YearFromTime t <= 9999 ->
  date_only_fields (ISO_date t)
  = Some (YearFromTime t, MonthFromTime t + 1, DateFromTime t).
Proof.
  intros Hy.
  destruct (civil_fields t) as (Hm & Hd & _).
  assert (Hd31 : DateFromTime t <= 31).
  { pose proof (DaysInMonth_le_31 (YearFromTime t) (MonthFromTime t)). lia. }
  unfold ISO_date, year_toISOString.
  replace ((0 <=? YearFromTime t) && (YearFromTime t <=? 9999)) with true
    by (symmetry; apply andb_true_iff; split; apply Z.leb_le; lia).
  generalize dependent (DateFromTime t). intros d Hd Hd31.
  generalize dependent (MonthFromTime t). intros m Hm Hd.
  generalize dependent (YearFromTime t). intros y Hy Hd.
  cbn [pad_digits String.append].
  unfold date_only_fields.
  repeat match goal with
         | |- context [is_digit (digit_char (?n mod 10))] =>
             rewrite (proj1 (digit_char_facts (n mod 10) (mod_10_digit n)))
         end.
  repeat match goal with
         | |- context [digit_value (digit_char (?n mod 10))] =>
             rewrite (proj1 (proj2 (digit_char_facts (n mod 10)
                                      (mod_10_digit n))))
         end.
  change (Ascii.eqb "-" "-") with true. cbn [andb]. cbv zeta.
  assert (Ey : 1000 * (y / 10 / 10 / 10 mod 10) + 100 * (y / 10 / 10 mod 10)
               + 10 * (y / 10 mod 10) + y mod 10 = y)
    by (Z.div_mod_to_equations; lia).
  assert (Em : 10 * ((m + 1) / 10 mod 10) + (m + 1) mod 10 = m + 1)
    by (Z.div_mod_to_equations; lia).
  assert (Ed : 10 * (d / 10 mod 10) + d mod 10 = d)
    by (Z.div_mod_to_equations; lia).
  rewrite Ey, Em, Ed.
  replace (m + 1 - 1) with m by lia.
  replace ((1 <=? m + 1) && (m + 1 <=? 12) && (1 <=? d)
           && (d <=? DaysInMonth y m)) with true; [reflexivity|].
  symmetry. repeat (apply andb_true_iff; split); apply Z.leb_le; lia.
Qed.

(** X7. A date the pipelines write is one [new Date] reads: for a time value
    of the years 0 to 9999, the [YYYY-MM-DD] string made with
    [toISOString().split('T')[0]] parses back to midnight UTC of the day the
    time falls in. *)
Theorem ISO_date_round_trip h t :
  0 <= YearFromTime t <= 9999 ->
  exists iso,
    toISOString (Some t) = Normal iso
    /\ new_Date h (split_first "T" iso) = Some (Day t * msPerDay).
Proof.
  intros Hy.
  destruct (toISOString_split t) as (iso & E & S).
  exists iso. split; [exact E|]. rewrite S.
  rewrite (new_Date_date_only h _ _ _ _ (date_only_fields_ISO_date t Hy)).
  replace (MonthFromTime t + 1 - 1) with (MonthFromTime t) by lia.
  now destruct (civil_fields t) as (_ & _ & ->).
Qed.

Lemma ISO_date_round_trip_witness :
  exists iso,
    toISOString (Some 1793700000123) = Normal iso
    /\ new_Date host_utc (split_first "T" iso) = Some (20760 * msPerDay).
Proof.
  apply (ISO_date_round_trip host_utc 1793700000123).
  vm_compute. split; discriminate.
Defined.


Lemma urlencode_app_safe_char c rest :
  urlencoded_safe c = true ->
  urlencode (String c rest) = String c (urlencode rest).
Proof. intros H. cbn [urlencode]. cbv zeta. now rewrite H. Qed.

Lemma urlencode_pad_digits width n rest :
  urlencode (pad_digits width n ++ rest) = pad_digits width n ++ urlencode rest.
Proof.
  revert n rest. induction width as [|width IH]; intros n rest.
  - reflexivity.
  - cbn [pad_digits]. rewrite !string_app_assoc, IH.
    cbn [String.append].
    rewrite urlencode_app_safe_char; [reflexivity|].
    apply digit_char_facts, mod_10_digit.
Qed.

(** A date of the years 0 to 9999 goes into the URL as it is. *)
Lemma urlencode_ISO_date t :
  0 <= YearFromTime t <= 9999 ->
  urlencode (ISO_date t) = ISO_date t /\ is_empty (ISO_date t) = false.
Proof.
  intros Hy. unfold ISO_date, year_toISOString.
  replace ((0 <=? YearFromTime t) && (YearFromTime t <=? 9999)) with true
    by (symmetry; apply andb_true_iff; split; apply Z.leb_le; lia).
  split; [|reflexivity].
  rewrite urlencode_pad_digits. f_equal.
  change ("-" ++ ?x) with (String "-" x).
  rewrite urlencode_app_safe_char by reflexivity. f_equal.
  rewrite urlencode_pad_digits. f_equal.
  change ("-" ++ ?x) with (String "-" x).
  rewrite urlencode_app_safe_char by reflexivity. f_equal.
  rewrite <- (string_app_nil_r (pad_digits 2 (DateFromTime t))) at 1.
  rewrite urlencode_pad_digits. apply string_app_nil_r.
Qed.

(** A time of the years 0 to 9999 is one a [Date] can hold. *)
Lemma year_range_time t : 0 <= YearFromTime t <= 9999 -> Z.abs t <= maxTime.
Proof.
  intros Hy.
  pose proof (YearFromDay_bounds (Day t)) as B. fold (YearFromTime t) in B.
  pose proof (DayFromYear_monotone 0 (YearFromTime t) ltac:(lia)) as B0.
  pose proof (DayFromYear_monotone (YearFromTime t + 1) 10000 ltac:(lia)) as B1.
  change (DayFromYear 0) with (-719528) in B0.
  change (DayFromYear 10000) with 2932897 in B1.
  unfold Day, msPerDay in B. unfold maxTime.
  Z.div_mod_to_equations. lia.
Qed.

(** X8. On a host with a credential, whose clock shows years from 0 to 9999
    also five years back, each pipeline makes exactly one request, and its
    URL carries both dates: the UTC date five years of 365 days before the
    second reading of the clock as [observation_start], and the UTC date of
    the first reading as [observation_end]. *)
Theorem pipeline_request_with_dates h seriesId P w key :
  In (seriesId, P) pipelines ->
  API_KEY h = Some key ->
  key <> "" ->
  key <> "your_fred_api_key_here" ->
  0 <= YearFromTime (clock h (clock_reads w)) <= 9999 ->
  0 <= YearFromTime (clock h (S (clock_reads w)) - five_years_ms) <= 9999 ->
  requests (snd (P h w))
  = (requests w
     ++ [("https://api.stlouisfed.org/fred/series/observations?series_id="
          ++ urlencode seriesId
          ++ "&api_key=" ++ urlencode key
          ++ "&file_type=json"
          ++ "&observation_start="
          ++ ISO_date (clock h (S (clock_reads w)) - five_years_ms)
          ++ "&observation_end="
          ++ ISO_date (clock h (clock_reads w)))%string])%list.
Proof.
  intros HP Hkey Hne Hph Hend Hstart.
  rewrite (pipelines_shape _ _ HP).
  rewrite (pipeline_run _ _ _ (year_range_time _ Hstart)).
  pose proof (usable_key_configured h key Hkey Hne Hph) as Hc.
  rewrite (fetchFredSeries_configured _ _ _ _ _ Hc).
  pose proof (settled_requests h
                (request_url h seriesId
                   (Some (ISO_date (clock h (S (clock_reads w))
                                    - five_years_ms)))
                   (Some (ISO_date (clock h (clock_reads w)))))
                (ticked 2 w)) as R.
  destruct (settled h _ (ticked 2 w)) as [[data|e] w']; cbn [snd] in *;
    rewrite R; clear R.
  all: rewrite request_url_format, Hkey; cbn [ticked requests];
    unfold date_param.
  all: destruct (urlencode_ISO_date _ Hend) as [-> ->];
    destruct (urlencode_ISO_date _ Hstart) as [-> ->];
    rewrite !string_app_assoc; reflexivity.
Qed.

Lemma pipeline_request_with_dates_witness :
  requests (snd (fetchCPIData host_500 initial_world))
  = ["https://api.stlouisfed.org/fred/series/observations?series_id=CPALTT01USM657N&api_key=abcdef0123456789&file_type=json&observation_start=2021-11-04&observation_end=2026-11-03"].
Proof.
  apply (pipeline_request_with_dates host_500 "CPALTT01USM657N" fetchCPIData
           initial_world "abcdef0123456789").
  - simpl. auto.
  - reflexivity.
  - discriminate.
  - discriminate.
  - vm_compute. split; discriminate.
  - vm_compute. split; discriminate.
Defined.

(** X9. Whatever the host, a pipeline reads the clock exactly twice and
    makes at most one request. *)
Theorem pipeline_effects h seriesId P w :
  In (seriesId, P) pipelines ->
  clock_reads (snd (P h w)) = (2 + clock_reads w)%nat
  /\ (requests (snd (P h w)) = requests w
      \/ exists url, requests (snd (P h w)) = (requests w ++ [url])%list).
Proof.
  intros HP. rewrite (pipelines_shape _ _ HP).
  destruct (Z.leb_spec (Z.abs (clock h (S (clock_reads w)) - five_years_ms))
                       maxTime) as [Hr|Hr].
  - rewrite (pipeline_run _ _ _ Hr).
    destruct (configured h) eqn:Hc.
    + rewrite (fetchFredSeries_configured _ _ _ _ _ Hc). unfold settled.
      destruct (attempt h _); (split; [reflexivity | right; eexists; reflexivity]).
    + rewrite (fetchFredSeries_unconfigured _ _ _ _ _ Hc).
      split; [reflexivity | left; reflexivity].
  - rewrite (pipeline_clock_out_of_range _ _ _ Hr).
    split; [reflexivity | left; reflexivity].
Qed.


(* ===================================================================== *)
(** * More on the page controller *)
(* ===================================================================== *)

Lemma first_rejection_none {A} (ps : list (Page.Promise A)) :
  (forall t e, ~ In (Page.Settled t (Throw e)) ps) ->
  Page.first_rejection ps = None.
Proof.
  induction ps as [|p ps IH]; intros H; [reflexivity|].
  cbn [Page.first_rejection].
  rewrite IH by (intros t e Hin; apply (H t e); now right).
  destruct p as [|t [a|e]]; try reflexivity.
  exfalso. apply (H t e). now left.
Qed.

Lemma first_rejection_some {A} (ps : list (Page.Promise A)) t0 e0 :
  In (Page.Settled t0 (Throw e0)) ps ->
  exists t e, Page.first_rejection ps = Some (t, e)
              /\ t <= t0 /\ In (Page.Settled t (Throw e)) ps.
Proof.
  induction ps as [|p ps IH]; intros Hin; [contradiction|].
  cbn [Page.first_rejection].
  destruct Hin as [->|Hin].
  - destruct (Page.first_rejection ps) as [[t' e']|] eqn:E.
    + destruct (Z.leb_spec t0 t').
      * exists t0, e0. repeat split; [lia | now left].
      * exists t', e'. repeat split; [lia|]. right.
        clear IH. revert E. induction ps as [|q ps IHps]; [discriminate|].
        cbn [Page.first_rejection].
        destruct q as [|u [a|x]]; intros E.
        -- right. now apply IHps.
        -- right. now apply IHps.
        -- destruct (Page.first_rejection ps) as [[u' x']|] eqn:E'.
           ++ destruct (u <=? u'); injection E as <- <-;
                [now left | right; now apply IHps].
           ++ injection E as <- <-. now left.
    + exists t0, e0. repeat split; [lia | now left].
  - destruct (IH Hin) as (t & e & E & Hle & Hin').
    rewrite E. destruct p as [|u [a|x]].
    + exists t, e. repeat split; [assumption | now right].
    + exists t, e. repeat split; [assumption | now right].
    + destruct (Z.leb_spec u t).
      * exists u, x. repeat split; [lia | now left].
      * exists t, e. repeat split; [assumption | now right].
Qed.

Lemma all_fulfilled_pending {A} (ps : list (Page.Promise A)) :
  In Page.Pending ps -> Page.all_fulfilled ps = None.
Proof.
  induction ps as [|p ps IH]; intros Hin; [contradiction|].
  cbn [Page.all_fulfilled].
  destruct Hin as [->|Hin]; [reflexivity|].
  destruct p as [|t [a|e]]; try reflexivity.
  now rewrite (IH Hin).
Qed.

Lemma first_rejection_earliest {A} (ps : list (Page.Promise A)) t e :
  Page.first_rejection ps = Some (t, e) ->
  In (Page.Settled t (Throw e)) ps
  /\ forall t' e', In (Page.Settled t' (Throw e')) ps -> t <= t'.
Proof.
  revert t e. induction ps as [|p ps IH]; intros t e E; [discriminate|].
  cbn [Page.first_rejection] in E.
  destruct p as [|u [a|x]].
  - destruct (IH _ _ E) as [Hin Hmin]. split; [now right|].
    intros t' e' [H|H]; [discriminate H | now apply (Hmin t' e')].
  - destruct (IH _ _ E) as [Hin Hmin]. split; [now right|].
    intros t' e' [H|H]; [discriminate H | now apply (Hmin t' e')].
  - destruct (Page.first_rejection ps) as [[u' x']|] eqn:Er.
    + destruct (IH _ _ eq_refl) as [Hin Hmin].
      destruct (Z.leb_spec u u') as [Hle|Hgt]; injection E as <- <-.
      * split; [now left|].
        intros t' e' [H|H]; [injection H as <- _; lia|].
        specialize (Hmin t' e' H). lia.
      * split; [now right|].
        intros t' e' [H|H]; [injection H as <- _; lia|].
        now apply (Hmin t' e').
    + injection E as <- <-. split; [now left|].
      intros t' e' [H|H]; [injection H as <- _; lia|].
      destruct (first_rejection_some _ _ _ H) as (? & ? & E' & _).
      rewrite Er in E'. discriminate E'.
Qed.

(** X10. When one of the four pipelines rejects, no result is stored, also
    none of a pipeline that had resolved before.  [loadData] sets the flag,
    and at the time [t] of the earliest rejection among the four puts the
    error [e] of a pipeline that rejected then on the console and clears the
    flag: the slots are empty at every time, and the flag is set before [t]
    and cleared from [t] on. *)
Theorem rejection_stores_nothing
    cpi unemployment treasury10Y treasury3M t0 e0 :
  In (Page.Settled t0 (Throw e0)) [cpi; unemployment; treasury10Y; treasury3M] ->
  Forall after_mount [cpi; unemployment; treasury10Y; treasury3M] ->
  exists t e,
    0 <= t <= t0
    /\ In (Page.Settled t (Throw e))
         [cpi; unemployment; treasury10Y; treasury3M]
    /\ (forall t' e',
          In (Page.Settled t' (Throw e'))
             [cpi; unemployment; treasury10Y; treasury3M] ->
          t <= t')
    /\ Page.loadData cpi unemployment treasury10Y treasury3M
       = [(0, Page.setLoading true);
          (t, Page.console_error "Error loading FRED data:" e);
          (t, Page.setLoading false)]
    /\ forall u,
         Page.state_at
           (Page.loadData cpi unemployment treasury10Y treasury3M) u
         = if u <? t then Page.initial_state
           else Page.mkHome [] [] [] [] false.
Proof.
  intros Hin Hmount.
  destruct (first_rejection_some _ _ _ Hin) as (t & e & E & _ & _).
  destruct (first_rejection_earliest _ _ _ E) as [Hin' Hmin].
  assert (Ht : 0 <= t).
  { rewrite Forall_forall in Hmount. apply (Hmount _ Hin'). }
  exists t, e. split; [split; [exact Ht | exact (Hmin _ _ Hin)]|].
  split; [exact Hin'|]. split; [exact Hmin|].
  assert (Htl : Page.loadData cpi unemployment treasury10Y treasury3M
                = [(0, Page.setLoading true);
                   (t, Page.console_error "Error loading FRED data:" e);
                   (t, Page.setLoading false)]).
  { unfold Page.loadData, Page.Promise_all. now rewrite E. }
  split; [exact Htl|].
  intros u. rewrite Htl. unfold Page.state_at. simpl.
  destruct (Z.ltb_spec u t).
  - destruct (Z.leb_spec t u); [lia|]. destruct (0 <=? u); reflexivity.
  - destruct (Z.leb_spec t u); [|lia].
    destruct (Z.leb_spec 0 u); [reflexivity | lia].
Qed.

Lemma rejection_stores_nothing_witness :
  exists t e,
    In (Page.Settled t (Throw e))
       [Page.Settled 10 (Normal ([] : Page.Series));
        Page.Settled 30 (Throw (RangeError "Invalid time value"));
        Page.Settled 20 (Throw (TypeError "Failed to fetch"));
        Page.Pending]
    /\ t <= 20
    /\ Page.loadData (Page.Settled 10 (Normal []))
         (Page.Settled 30 (Throw (RangeError "Invalid time value")))
         (Page.Settled 20 (Throw (TypeError "Failed to fetch"))) Page.Pending
       = [(0, Page.setLoading true);
          (t, Page.console_error "Error loading FRED data:" e);
          (t, Page.setLoading false)].
Proof.
  destruct (rejection_stores_nothing (Page.Settled 10 (Normal []))
              (Page.Settled 30 (Throw (RangeError "Invalid time value")))
              (Page.Settled 20 (Throw (TypeError "Failed to fetch")))
              Page.Pending 30 (RangeError "Invalid time value"))
    as (t & e & _ & Hin & Hmin & Htl & _).
  - simpl. auto.
  - repeat constructor; simpl; lia.
  - exists t, e. split; [exact Hin|]. split; [|exact Htl].
    apply (Hmin 20 (TypeError "Failed to fetch")). simpl. auto.
Defined.

(** X11. When one of the four pipelines never settles and none rejects, the
    page loads for ever: the only thing [loadData] does is set the flag, and
    at every time the state is the initial one, loading, with empty
    slots. *)
Theorem unanswered_request_loads_forever
    cpi unemployment treasury10Y treasury3M :
  In Page.Pending [cpi; unemployment; treasury10Y; treasury3M] ->
  (forall t e,
      ~ In (Page.Settled t (Throw e))
           [cpi; unemployment; treasury10Y; treasury3M]) ->
  Page.loadData cpi unemployment treasury10Y treasury3M
  = [(0, Page.setLoading true)]
  /\ forall u,
       Page.state_at (Page.loadData cpi unemployment treasury10Y treasury3M) u
       = Page.initial_state
       /\ Page.Home
            (Page.state_at
               (Page.loadData cpi unemployment treasury10Y treasury3M) u)
          = Page.loading_message "Loading economic data...".
Proof.
  intros Hpending Hnone.
  assert (Htl : Page.loadData cpi unemployment treasury10Y treasury3M
                = [(0, Page.setLoading true)]).
  { unfold Page.loadData, Page.Promise_all.
    now rewrite (first_rejection_none _ Hnone),
      (all_fulfilled_pending _ Hpending). }
  split; [exact Htl|].
  intros u. rewrite Htl. unfold Page.state_at. simpl.
  destruct (0 <=? u); split; reflexivity.
Qed.

Lemma unanswered_request_loads_forever_witness :
  Page.Home
    (Page.state_at
       (Page.loadData (Page.Settled 10 (Normal [])) Page.Pending
          (Page.Settled 20 (Normal [])) (Page.Settled 5 (Normal [])))
       86400000)
  = Page.loading_message "Loading economic data...".
Proof.
  apply (proj2 (unanswered_request_loads_forever
                  (Page.Settled 10 (Normal [])) Page.Pending
                  (Page.Settled 20 (Normal [])) (Page.Settled 5 (Normal []))
                  ltac:(simpl; auto)
                  ltac:(intros t e [H|[H|[H|[H|[]]]]]; discriminate H))).
Defined.

Lemma first_rejection_in {A} (ps : list (Page.Promise A)) t e :
  Page.first_rejection ps = Some (t, e) -> In (Page.Settled t (Throw e)) ps.
Proof.
  revert t e. induction ps as [|p ps IH]; intros t e E; [discriminate|].
  cbn [Page.first_rejection] in E.
  destruct p as [|u [a|x]].
  - right. now apply IH.
  - right. now apply IH.
  - destruct (Page.first_rejection ps) as [[u' x']|].
    + destruct (u <=? u'); injection E as <- <-;
        [now left | right; now apply IH].
    + injection E as <- <-. now left.
Qed.

Lemma all_fulfilled_length {A} (ps : list (Page.Promise A)) t values :
  Page.all_fulfilled ps = Some (t, values) ->
  List.length values = List.length ps /\ 0 <= t.
Proof.
  revert t values. induction ps as [|p ps IH]; intros t values E.
  - injection E as <- <-. split; [reflexivity | lia].
  - cbn [Page.all_fulfilled] in E.
    destruct p as [|u [a|x]]; try discriminate.
    destruct (Page.all_fulfilled ps) as [[t' values']|]; [|discriminate].
    injection E as <- <-.
    destruct (IH _ _ eq_refl) as [Hl Ht]. split; [simpl; now rewrite Hl | lia].
Qed.

(** Whatever the four promises do, the state is the initial one up to some
    time, and one with the flag cleared from then on, or the initial one for
    ever. *)
Lemma loadData_cases cpi unemployment treasury10Y treasury3M :
  Forall after_mount [cpi; unemployment; treasury10Y; treasury3M] ->
  (exists t final,
      0 <= t /\ Page.loading final = false
      /\ forall u,
           Page.state_at
             (Page.loadData cpi unemployment treasury10Y treasury3M) u
           = if u <? t then Page.initial_state else final)
  \/ (forall u,
        Page.state_at (Page.loadData cpi unemployment treasury10Y treasury3M) u
        = Page.initial_state).
Proof.
  intros Hmount. unfold Page.loadData, Page.Promise_all.
  destruct (Page.first_rejection _) as [[t e]|] eqn:Er.
  - left. exists t, (Page.mkHome [] [] [] [] false).
    assert (Ht : 0 <= t).
    { rewrite Forall_forall in Hmount.
      apply (Hmount _ (first_rejection_in _ _ _ Er)). }
    repeat split; [exact Ht|]. intros u. unfold Page.state_at. simpl.
    destruct (Z.ltb_spec u t).
    + destruct (Z.leb_spec t u); [lia|]. destruct (0 <=? u); reflexivity.
    + destruct (Z.leb_spec t u); [|lia].
      destruct (Z.leb_spec 0 u); [reflexivity | lia].
  - destruct (Page.all_fulfilled _) as [[t values]|] eqn:Ef.
    + destruct (all_fulfilled_length _ _ _ Ef) as [Hl Ht].
      destruct values as [|a [|b [|c [|d [|? ?]]]]]; try discriminate Hl.
      left. exists t, (Page.mkHome a b c d false).
      repeat split; [exact Ht|]. intros u. unfold Page.state_at. simpl.
      destruct (Z.ltb_spec u t).
      * destruct (Z.leb_spec t u); [lia|]. destruct (0 <=? u); reflexivity.
      * destruct (Z.leb_spec t u); [|lia].
        destruct (Z.leb_spec 0 u); [reflexivity | lia].
    + right. intros u. unfold Page.state_at. simpl.
      destruct (0 <=? u); reflexivity.
Qed.

(** X12. However the four promises settle after the mount, nothing is stored
    while the loading flag is set: at every time the state is the initial
    one, or the flag is cleared; and once cleared it is never set again. *)
Theorem loading_flag_invariant cpi unemployment treasury10Y treasury3M :
  Forall after_mount [cpi; unemployment; treasury10Y; treasury3M] ->
  (forall u,
      Page.loading
        (Page.state_at (Page.loadData cpi unemployment treasury10Y treasury3M) u)
      = true ->
      Page.state_at (Page.loadData cpi unemployment treasury10Y treasury3M) u
      = Page.initial_state)
  /\ (forall u u',
        u <= u' ->
        Page.loading
          (Page.state_at
             (Page.loadData cpi unemployment treasury10Y treasury3M) u)
        = false ->
        Page.loading
          (Page.state_at
             (Page.loadData cpi unemployment treasury10Y treasury3M) u')
        = false).
Proof.
  intros Hmount.
  destruct (loadData_cases _ _ _ _ Hmount) as [(t & final & Ht & Hf & Hs)|Hs].
  - split.
    + intros u. rewrite Hs. destruct (u <? t); [reflexivity|].
      rewrite Hf. discriminate.
    + intros u u' Hle. rewrite !Hs.
      destruct (Z.ltb_spec u t); [discriminate|].
      destruct (Z.ltb_spec u' t); [lia | tauto].
  - split.
    + intros u _. apply Hs.
    + intros u u' _. rewrite !Hs. discriminate.
Qed.

Lemma loading_flag_invariant_witness :
  Page.state_at
    (Page.loadData (Page.Settled 10 (Normal []))
       (Page.Settled 30 (Throw (RangeError "Invalid time value")))
       (Page.Settled 20 (Normal [])) Page.Pending) 25
  = Page.initial_state.
Proof.
  apply (proj1 (loading_flag_invariant (Page.Settled 10 (Normal []))
                  (Page.Settled 30 (Throw (RangeError "Invalid time value")))
                  (Page.Settled 20 (Normal [])) Page.Pending
                  ltac:(repeat constructor; simpl; lia)) 25).
  reflexivity.
Defined.

(** X13. When the four pipelines resolve, the page shows the loading message
    until the slowest has, and then two rows of two charts: the CPI chart
    with the result of the first pipeline and the unemployment chart with
    that of the second, the 10-year chart with the third and the 3-month
    chart with the fourth, each line keyed by [date] and [value] and with an
    automatic value axis. *)
Theorem Home_shows_each_series_in_its_chart
    cpi unemployment treasury10Y treasury3M t1 t2 t3 t4 u :
  0 <= t1 -> 0 <= t2 -> 0 <= t3 -> 0 <= t4 ->
  Page.Home
    (Page.state_at
       (Page.loadData (Page.Settled t1 (Normal cpi))
                      (Page.Settled t2 (Normal unemployment))
                      (Page.Settled t3 (Normal treasury10Y))
                      (Page.Settled t4 (Normal treasury3M))) u)
  = if u <? slowest t1 t2 t3 t4
    then Page.loading_message "Loading economic data..."
    else
      let chart title points y_label :=
        Page.mkChart title title points "date" "value" y_label
                     (Page.auto, Page.auto) None in
      Page.charts
        [[chart "CPI - Growth Rate (Last 5 Years)" cpi
                "Growth rate previous period";
          chart "Unemployment Rate (Last 5 Years)" unemployment "Percent"];
         [chart "10-Year Treasury Constant Maturity Rate" treasury10Y "Percent";
          chart "3-Month Treasury Bill Rate" treasury3M "Percent"]].
Proof.
  intros H1 H2 H3 H4.
  rewrite loadData_fulfilled by assumption.
  destruct (u <? slowest t1 t2 t3 t4); reflexivity.
Qed.

Lemma Home_shows_each_series_in_its_chart_witness :
  Page.Home
    (Page.state_at
       (Page.loadData (Page.Settled 40 (Normal []))
                      (Page.Settled 10 (Normal []))
                      (Page.Settled 30 (Normal []))
                      (Page.Settled 20 (Normal []))) 39)
  = Page.loading_message "Loading economic data...".
Proof.
  apply (Home_shows_each_series_in_its_chart [] [] [] [] 40 10 30 20 39);
    lia.
Defined.


(** A pipeline on a host without a usable credential: two readings of the
    clock, the warning, and the empty sequence. *)
Lemma pipeline_unconfigured h seriesId w :
  configured h = false ->
  plausible_clock h ->
  pipeline h seriesId w
  = (Normal [],
     warned "FRED API key not configured. Using mock data." (ticked 2 w)).
Proof.
  intros Hc Hclock.
  assert (Hr : Z.abs (clock h (S (clock_reads w)) - five_years_ms) <= maxTime).
  { specialize (Hclock (S (clock_reads w))).
    unfold five_years_ms, maxTime in *. lia. }
  rewrite (pipeline_run _ _ _ Hr).
  now rewrite (fetchFredSeries_unconfigured _ _ _ _ _ Hc).
Qed.

(** X14. On a host whose credential is undefined, empty or the placeholder
    (and whose clock is plausible), loading the page asks the upstream for
    nothing: no pipeline makes a request, each warns once on the console, and
    once the four have resolved the page shows four empty series. *)
Theorem page_without_credential h settles t1 t2 t3 t4 :
  API_KEY h = None \/ API_KEY h = Some ""
  \/ API_KEY h = Some "your_fred_api_key_here" ->
  plausible_clock h ->
  settles 0%nat = Some t1 -> settles 1%nat = Some t2 ->
  settles 2%nat = Some t3 -> settles 3%nat = Some t4 ->
  0 <= t1 -> 0 <= t2 -> 0 <= t3 -> 0 <= t4 ->
  (forall seriesId P w,
      In (seriesId, P) pipelines ->
      requests (snd (P h w)) = requests w
      /\ console (snd (P h w))
         = (console w
            ++ [warn "FRED API key not configured. Using mock data."])%list)
  /\ forall u,
       Page.state_at (Page.useEffect h settles) u
       = if u <? slowest t1 t2 t3 t4
         then Page.initial_state
         else Page.mkHome [] [] [] [] false.
Proof.
  intros Hkey Hclock S1 S2 S3 S4 H1 H2 H3 H4.
  assert (Hc : configured h = false) by now apply configured_false.
  split.
  - intros seriesId P w HP. rewrite (pipelines_shape _ _ HP).
    rewrite (pipeline_unconfigured _ _ _ Hc Hclock). split; reflexivity.
  - intros u. unfold Page.useEffect. rewrite S1, S2, S3, S4.
    change (fetchCPIData h) with (pipeline h "CPALTT01USM657N").
    rewrite (pipeline_unconfigured _ _ _ Hc Hclock).
    change (fetchUnemploymentData h) with (pipeline h "UNRATE").
    rewrite (pipeline_unconfigured _ _ _ Hc Hclock).
    change (fetch10YearTreasuryData h) with (pipeline h "GS10").
    rewrite (pipeline_unconfigured _ _ _ Hc Hclock).
    change (fetch3MonthTreasuryData h) with (pipeline h "TB3MS").
    rewrite (pipeline_unconfigured _ _ _ Hc Hclock).
    now apply loadData_fulfilled.
Qed.

Lemma page_without_credential_witness :
  Page.state_at
    (Page.useEffect host_without_key
       (fun i => Some (Z.of_nat i + 1))) 4
  = Page.mkHome [] [] [] [] false.
Proof.
  apply (proj2 (page_without_credential host_without_key
                  (fun i => Some (Z.of_nat i + 1)) 1 2 3 4
                  ltac:(left; reflexivity)
                  (host_with_plausible_clock _ _ _)
                  eq_refl eq_refl eq_refl eq_refl
                  ltac:(lia) ltac:(lia) ltac:(lia) ltac:(lia)) 4).
Defined.


(* ===================================================================== *)
(** * The sidebar *)
(* ===================================================================== *)

(** A click sets the active item to the label of the button clicked. *)
Lemma click_label activeItem i :
  Sidebar.click activeItem i
  = match nth_error Sidebar.menuItems i with
    | Some item => snd item
    | None => activeItem
    end.
Proof.
  unfold Sidebar.click, Sidebar.Sidebar. rewrite nth_error_map.
  destruct (nth_error Sidebar.menuItems i); reflexivity.
Qed.

Lemma click_in_menu activeItem i :
  In activeItem (map snd Sidebar.menuItems) ->
  In (Sidebar.click activeItem i) (map snd Sidebar.menuItems).
Proof.
  intros Hin. rewrite click_label.
  destruct (nth_error Sidebar.menuItems i) as [item|] eqn:E; [|exact Hin].
  apply in_map. now apply nth_error_In in E.
Qed.

Lemma fold_click_in_menu clicks activeItem :
  In activeItem (map snd Sidebar.menuItems) ->
  In (fold_left Sidebar.click clicks activeItem) (map snd Sidebar.menuItems).
Proof.
  revert activeItem. induction clicks as [|i clicks IH]; intros s Hin.
  - exact Hin.
  - simpl. apply IH. now apply click_in_menu.
Qed.

(** X16. After any clicks on the menu, the active item is one of the menu,
    exactly one button is drawn as active, and it is the button of the
    active item; a click on a button makes its item the active one. *)
Theorem exactly_one_active_item clicks :
  In (Sidebar.after_clicks clicks) (map snd Sidebar.menuItems)
  /\ List.length
       (filter highlighted (Sidebar.Sidebar (Sidebar.after_clicks clicks)))
     = 1%nat
  /\ (forall b,
        In b (Sidebar.Sidebar (Sidebar.after_clicks clicks)) ->
        highlighted b = true ->
        Sidebar.button_label b = Sidebar.after_clicks clicks)
  /\ (forall i item,
        nth_error Sidebar.menuItems i = Some item ->
        Sidebar.after_clicks (clicks ++ [i]) = snd item).
Proof.
  assert (Hin : In (Sidebar.after_clicks clicks) (map snd Sidebar.menuItems)).
  { apply fold_click_in_menu. simpl. auto. }
  split; [exact Hin|].
  split; [|split].
  - revert Hin. generalize (Sidebar.after_clicks clicks) as s. intros s.
    simpl. intros [<-|[<-|[<-|[<-|[<-|[<-|[<-|[<-|[]]]]]]]]]; reflexivity.
  - revert Hin. generalize (Sidebar.after_clicks clicks) as s. intros s Hin b.
    simpl in Hin.
    destruct Hin as [<-|[<-|[<-|[<-|[<-|[<-|[<-|[<-|[]]]]]]]]];
      simpl; intros [<-|[<-|[<-|[<-|[<-|[<-|[<-|[<-|[]]]]]]]]];
      intros H; try reflexivity; discriminate H.
  - intros i item E. unfold Sidebar.after_clicks.
    rewrite fold_left_app. simpl. now rewrite click_label, E.
Qed.

Lemma pipeline_effects_witness :
  clock_reads (snd (fetchUnemploymentData host_offline initial_world)) = 2%nat.
Proof.
  apply (proj1 (pipeline_effects host_offline "UNRATE" fetchUnemploymentData
                  initial_world ltac:(simpl; auto))).
Defined.

Lemma exactly_one_active_item_witness :
  Sidebar.after_clicks ([3%nat; 99%nat] ++ [5%nat])%list = "Exchange Rates".
Proof.
  apply (proj2 (proj2 (proj2 (exactly_one_active_item [3%nat; 99%nat])))
           5%nat ("🌐", "Exchange Rates")).
  reflexivity.
Defined.

(* ===================================================================== *)
(** * The labels, east and west of UTC *)
(* ===================================================================== *)

Lemma label_at_or_east_of_UTC_witness :
  Point.date (normalize host_tokyo (mkObservation "2020-12-31" "6.7"))
  = "Dec 2020".
Proof.
  apply (label_at_or_east_of_UTC host_tokyo
           (mkObservation "2020-12-31" "6.7") 2020 12 31).
  - reflexivity.
  - lia.
  - vm_compute. split; [discriminate | reflexivity].
Defined.

Lemma label_west_of_UTC_witness :
  Point.date (normalize host_new_york (mkObservation "2021-01-01" "6.4"))
  = "Dec 2020".
Proof.
  apply (label_west_of_UTC host_new_york
           (mkObservation "2021-01-01" "6.4") 2021 1).
  - reflexivity.
  - lia.
  - vm_compute. split; [discriminate | reflexivity].
Defined.
